(** * BackboneBase: image + LiDAR feature fusion backbone

    A shallow embedding of
    [src/baselines/transfuser/learner/models_refactored/backbone.py]
    together with the [torch.nn] layers it instantiates, and the
    properties the specification states about it.

    Conventions.
    - A tensor is its shape together with its entries, read by index.
      Entries outside the shape are never inspected by the layers.
    - Floating-point arithmetic is kept abstract: the development is
      parametric in a [Scalar] structure, so every theorem holds for
      whatever the tensor engine computes.  Only where a theorem needs an
      algebraic law (adding zero, multiplying by zero) is that law a
      hypothesis.
    - Python exceptions are values of [Exception]; a call that may raise
      returns a [Result]. *)

From Stdlib Require Import List String Ascii Arith ZArith QArith Qround Lia Bool.
Import ListNotations.
Close Scope Q_scope.
Open Scope nat_scope.

Set Implicit Arguments.

(* ------------------------------------------------------------------ *)
(** ** Exceptions and results *)

Inductive Exception : Type :=
| NotImplementedError                 (* raised by BackboneBase.encoder *)
| RuntimeError                        (* shape errors of the tensor engine *)
| IndexError                          (* list index out of range *)
| OtherError (name : string).         (* whatever an external collaborator raises *)

Inductive Result (A : Type) : Type :=
| Ok (a : A)
| Raise (e : Exception).

Arguments Ok {A} a.
Arguments Raise {A} e.

Definition bind {A B : Type} (c : Result A) (k : A -> Result B) : Result B :=
  match c with
  | Ok a => k a
  | Raise e => Raise e
  end.

Notation "x <- c ;; k" := (bind c (fun x => k))
  (at level 61, c at next level, right associativity).
Notation "' p <- c ;; k" := (bind c (fun x => match x with p => k end))
  (at level 61, p pattern, c at next level, right associativity).

(* ------------------------------------------------------------------ *)
(** ** Scalars *)

(** The arithmetic of tensor entries.  [of_Q] rounds a rational constant
    (a Python float literal, an integer count) to a scalar. *)
Class Scalar (R : Type) : Type := {
  of_Q  : Q -> R;
  fadd  : R -> R -> R;
  fsub  : R -> R -> R;
  fmul  : R -> R -> R;
  fdiv  : R -> R -> R;
  fsqrt : R -> R;
  fmax  : R -> R -> R
}.

(* ------------------------------------------------------------------ *)
(** ** What the module consumes from outside *)

(** Modelled from the spec: the configuration class is not in this file.
    These are the attributes this file reads of it (section 3 of the
    specification lists them). *)
Module Config.
Record t : Type := {
  perception_output_features : nat;
  img_vert_anchors : nat;
  img_horz_anchors : nat;
  lidar_vert_anchors : nat;
  lidar_horz_anchors : nat;
  num_features : list nat;
  use_point_pillars : bool;
  lidar_seq_len : nat;
  use_target_point_image : bool;
  bev_features_chanels : nat;
  (* An integral scale factor: the output size of nn.Upsample is
     floor(size * scale_factor). *)
  bev_upsample_factor : nat;
  n_head : nat;
  block_exp : nat;
  n_layer : nat;
  img_anchors : nat;
  lidar_anchors : nat;
  seq_len : nat;
  embd_pdrop : Q;
  attn_pdrop : Q;
  resid_pdrop : Q
}.
End Config.

(** Modelled from the spec: the encoder classes ([ImageEncoder],
    [LidarEncoder] of components/encoders.py) are not in this file.  An
    encoder object exposes its output channel width and a normalize flag
    (section 6 of the specification). *)
Module Encoder.
Record t : Type := {
  num_features : nat;
  normalize : bool
}.
End Encoder.

(** The keyword arguments [_make_gpt] passes to [GPT]. *)
Module GPTArgs.
Record t : Type := {
  n_embd : nat;
  n_head : nat;
  block_exp : nat;
  n_layer : nat;
  img_anchors : nat;
  lidar_anchors : nat;
  seq_len : nat;
  embd_pdrop : Q;
  attn_pdrop : Q;
  resid_pdrop : Q;
  config : Config.t;
  use_velocity : bool
}.
End GPTArgs.

(** [config.num_features[-1]]. *)
Definition last_item (l : list nat) : Result nat :=
  match l with
  | [] => Raise IndexError
  | x :: r => Ok (last r x)
  end.

(** [architecture.startswith('convnext')]. *)
Definition startswith (s p : string) : bool := String.prefix p s.

Section Tensors.

Variable R : Type.
Context {SR : Scalar R}.

Definition of_nat (n : nat) : R := of_Q (inject_Z (Z.of_nat n)).
Definition zero : R := of_nat 0.
Definition one : R := of_nat 1.

(** Sums run left to right from zero. *)
Definition fsum (l : list R) : R := fold_left fadd l zero.
Definition tabulate {A : Type} (n : nat) (f : nat -> A) : list A :=
  map f (seq 0 n).
Definition sum_upto (n : nat) (f : nat -> R) : R := fsum (tabulate n f).
Definition sum_range (lo hi : nat) (f : nat -> R) : R :=
  fsum (map f (seq lo (hi - lo))).

(* ------------------------------------------------------------------ *)
(** ** Tensors *)

(** A 2-D tensor of shape (rows, cols). *)
Record Tensor2 : Type := mkT2 {
  rows : nat;
  cols : nat;
  at2 : nat -> nat -> R
}.

(** A 4-D feature map of shape (batch, chans, height, width). *)
Record Tensor4 : Type := mkT4 {
  batch : nat;
  chans : nat;
  height : nat;
  width : nat;
  at4 : nat -> nat -> nat -> nat -> R
}.

Definition shape2 (t : Tensor2) : nat * nat := (rows t, cols t).
Definition shape4 (t : Tensor4) : nat * nat * nat * nat :=
  (batch t, chans t, height t, width t).

(** The entries as nested lists, as [tensor.tolist()] prints them. *)
Definition tolist2 (t : Tensor2) : list (list R) :=
  tabulate (rows t) (fun i => tabulate (cols t) (fun j => at2 t i j)).
Definition tolist4 (t : Tensor4) : list (list (list (list R))) :=
  tabulate (batch t) (fun n => tabulate (chans t) (fun c =>
    tabulate (height t) (fun h => tabulate (width t) (fun w => at4 t n c h w)))).

(** Two embeddings are identical: same shape, same entries. *)
Definition same2 (x y : Tensor2) : Prop :=
  shape2 x = shape2 y /\
  forall i j, i < rows x -> j < cols x -> at2 x i j = at2 y i j.

(* ------------------------------------------------------------------ *)
(** ** torch.nn functional layer semantics *)

(** Broadcasting of one dimension. *)
Definition broadcast_dim (a b : nat) : option nat :=
  if a =? b then Some a
  else if a =? 1 then Some b
  else if b =? 1 then Some a
  else None.

(** The index read in a dimension of size [d] that may be broadcast. *)
Definition bidx (d i : nat) : nat := if d =? 1 then 0 else i.

(** [x + y] on 2-D tensors. *)
Definition tadd2 (x y : Tensor2) : Result Tensor2 :=
  match broadcast_dim (rows x) (rows y), broadcast_dim (cols x) (cols y) with
  | Some r, Some c =>
      Ok (mkT2 r c (fun i j =>
            fadd (at2 x (bidx (rows x) i) (bidx (cols x) j))
                 (at2 y (bidx (rows y) i) (bidx (cols y) j))))
  | _, _ => Raise RuntimeError
  end.

(** [F.linear] on the last dimension of a 2-D tensor:
    y[i, j] = sum_k x[i, k] * weight[j, k] + bias[j]. *)
Definition linear2 (in_features out_features : nat)
    (weight : nat -> nat -> R) (bias : nat -> R) (x : Tensor2) : Result Tensor2 :=
  if cols x =? in_features then
    Ok (mkT2 (rows x) out_features (fun i j =>
          fadd (sum_upto in_features (fun k => fmul (at2 x i k) (weight j k)))
               (bias j)))
  else Raise RuntimeError.

(** [F.linear] on the last dimension of a 4-D tensor. *)
Definition linear4 (in_features out_features : nat)
    (weight : nat -> nat -> R) (bias : nat -> R) (x : Tensor4) : Result Tensor4 :=
  if width x =? in_features then
    Ok (mkT4 (batch x) (chans x) (height x) out_features (fun n c h j =>
          fadd (sum_upto in_features (fun k => fmul (at4 x n c h k) (weight j k)))
               (bias j)))
  else Raise RuntimeError.

(** [F.conv2d] with stride 1 and no padding:
    y[n, o, h, w] = sum_c sum_i sum_j weight[o, c, i, j] * x[n, c, h+i, w+j]
                    + bias[o].
    The channel count must be [in_channels] and the kernel must fit. *)
Definition conv2d (in_channels out_channels : nat) (kernel_size : nat * nat)
    (weight : nat -> nat -> nat -> nat -> R) (bias : nat -> R)
    (x : Tensor4) : Result Tensor4 :=
  let (kh, kw) := kernel_size in
  if (chans x =? in_channels) && (kh <=? height x) && (kw <=? width x) then
    Ok (mkT4 (batch x) out_channels (height x + 1 - kh) (width x + 1 - kw)
          (fun n o h w =>
             fadd (sum_upto in_channels (fun c =>
                     sum_upto kh (fun i =>
                       sum_upto kw (fun j =>
                         fmul (weight o c i j) (at4 x n c (h + i) (w + j))))))
                  (bias o)))
  else Raise RuntimeError.

(** Mean of a row of [n] entries. *)
Definition mean_upto (n : nat) (f : nat -> R) : R :=
  fdiv (sum_upto n f) (of_nat n).

(** [F.layer_norm] over a last dimension of size [n]:
    (x - mean) / sqrt(var + eps) * weight + bias, with the biased variance. *)
Definition layer_norm_row (n : nat) (eps : Q) (weight bias : nat -> R)
    (row : nat -> R) (j : nat) : R :=
  let mu := mean_upto n row in
  let var := mean_upto n (fun k => fmul (fsub (row k) mu) (fsub (row k) mu)) in
  fadd (fmul (fdiv (fsub (row j) mu) (fsqrt (fadd var (of_Q eps)))) (weight j))
       (bias j).

Definition layer_norm2 (n : nat) (eps : Q) (weight bias : nat -> R)
    (x : Tensor2) : Result Tensor2 :=
  if cols x =? n then
    Ok (mkT2 (rows x) (cols x) (fun i j =>
          layer_norm_row n eps weight bias (at2 x i) j))
  else Raise RuntimeError.

Definition layer_norm4 (n : nat) (eps : Q) (weight bias : nat -> R)
    (x : Tensor4) : Result Tensor4 :=
  if width x =? n then
    Ok (mkT4 (batch x) (chans x) (height x) (width x) (fun b c h j =>
          layer_norm_row n eps weight bias (at4 x b c h) j))
  else Raise RuntimeError.

(** Bin [i] of an adaptive pooling of [size] entries into [out] bins:
    from floor(i*size/out) up to ceil((i+1)*size/out). *)
Definition bin_start (size out i : nat) : nat := (i * size) / out.
Definition bin_end (size out i : nat) : nat := ((i + 1) * size + out - 1) / out.

(** [F.adaptive_avg_pool2d]: every output cell is the mean of its bin.
    The non-batch dimensions of the input must be non-empty. *)
Definition adaptive_avg_pool2d (output_size : nat * nat) (x : Tensor4)
    : Result Tensor4 :=
  let (oh, ow) := output_size in
  if (0 <? chans x) && (0 <? height x) && (0 <? width x) then
    Ok (mkT4 (batch x) (chans x) oh ow (fun n c i j =>
          let hs := bin_start (height x) oh i in
          let he := bin_end (height x) oh i in
          let ws := bin_start (width x) ow j in
          let we := bin_end (width x) ow j in
          fdiv (sum_range hs he (fun h => sum_range ws we (fun w => at4 x n c h w)))
               (of_nat ((he - hs) * (we - ws)))))
  else Raise RuntimeError.

(** [torch.flatten(x, start_dim=1)] of a 4-D tensor, row-major. *)
Definition flatten (x : Tensor4) : Tensor2 :=
  mkT2 (batch x) (chans x * height x * width x) (fun n k =>
    at4 x n (k / (height x * width x)) ((k / width x) mod height x) (k mod width x)).

(** [F.relu]. *)
Definition relu (x : Tensor4) : Tensor4 :=
  mkT4 (batch x) (chans x) (height x) (width x)
       (fun n c h w => fmax (at4 x n c h w) zero).

Inductive InterpMode : Type := nearest | bilinear.

(** The source coordinate of output index [i] as a fraction
    (numerator, denominator).  Corner-unaligned: (i + 1/2)/s - 1/2, clamped
    at zero.  Corner-aligned: i * (in - 1)/(out - 1). *)
Definition source_coord (align_corners : bool) (s in_size out_size i : nat)
    : nat * nat :=
  if align_corners then
    if out_size <=? 1 then (0, 1) else (i * (in_size - 1), out_size - 1)
  else (2 * i + 1 - s, 2 * s).

Definition lower_index (in_size : nat) (c : nat * nat) : nat :=
  Nat.min (fst c / snd c) (in_size - 1).
Definition upper_index (in_size : nat) (c : nat * nat) : nat :=
  Nat.min (fst c / snd c + 1) (in_size - 1).
Definition upper_weight (c : nat * nat) : R :=
  fdiv (of_nat (fst c mod snd c)) (of_nat (snd c)).
Definition lower_weight (c : nat * nat) : R := fsub one (upper_weight c).

(** [F.interpolate] with an integral [scale_factor]: the output size is
    the input size times the factor; sizes must be positive. *)
Definition interpolate (scale_factor : nat) (mode : InterpMode)
    (align_corners : bool) (x : Tensor4) : Result Tensor4 :=
  let oh := height x * scale_factor in
  let ow := width x * scale_factor in
  if (0 <? chans x) && (0 <? height x) && (0 <? width x) && (0 <? oh) && (0 <? ow)
  then
    Ok (mkT4 (batch x) (chans x) oh ow (fun n c i j =>
          match mode with
          | nearest =>
              at4 x n c (Nat.min (i / scale_factor) (height x - 1))
                        (Nat.min (j / scale_factor) (width x - 1))
          | bilinear =>
              let ch := source_coord align_corners scale_factor (height x) oh i in
              let cw := source_coord align_corners scale_factor (width x) ow j in
              let h0 := lower_index (height x) ch in
              let h1 := upper_index (height x) ch in
              let w0 := lower_index (width x) cw in
              let w1 := upper_index (width x) cw in
              fadd (fmul (lower_weight ch)
                      (fadd (fmul (lower_weight cw) (at4 x n c h0 w0))
                            (fmul (upper_weight cw) (at4 x n c h0 w1))))
                   (fmul (upper_weight ch)
                      (fadd (fmul (lower_weight cw) (at4 x n c h1 w0))
                            (fmul (upper_weight cw) (at4 x n c h1 w1))))
          end))
  else Raise RuntimeError.

End Tensors.

Arguments zero {R SR}.
Arguments one {R SR}.

(* ------------------------------------------------------------------ *)
(** ** Imports *)

(** The names this file imports from the rest of the repository
    (components/gpt.py, components/encoders.py), and the tensors it only
    hands on.  Their code is outside this file: they are parameters here. *)
Class Imports (R : Type) : Type := {
  Points : Type;                      (* bev_points, img_points *)
  GPTObject : Type;
  GPT : GPTArgs.t -> GPTObject;
  ImageEncoder : string -> bool -> Result Encoder.t;
  LidarEncoder : string -> nat -> Result Encoder.t;
  normalize_imagenet : Tensor4 R -> Result (Tensor4 R)
}.

Section Backbone.

Variable R : Type.
Context {SR : Scalar R} {IM : Imports R}.

(* ------------------------------------------------------------------ *)
(** ** torch.nn modules *)

(** The modules an attribute of the backbone may hold after [__init__]
    chose between a learned layer and [nn.Identity]. *)
Inductive Layer : Type :=
| Identity
| Linear (in_features out_features : nat)
         (weight : nat -> nat -> R) (bias : nat -> R)
| Conv2d (in_channels out_channels : nat) (kernel_size : nat * nat)
         (weight : nat -> nat -> nat -> nat -> R) (bias : nat -> R)
| LayerNorm (normalized_shape : nat) (eps : Q) (weight bias : nat -> R).

(** [module(x)] for a 2-D input.  conv2d accepts 3-D and 4-D inputs only. *)
Definition call2 (m : Layer) (x : Tensor2 R) : Result (Tensor2 R) :=
  match m with
  | Identity => Ok x
  | Linear i o w b => linear2 i o w b x
  | Conv2d _ _ _ _ _ => Raise RuntimeError
  | LayerNorm n eps w b => layer_norm2 n eps w b x
  end.

(** [module(x)] for a 4-D input. *)
Definition call4 (m : Layer) (x : Tensor4 R) : Result (Tensor4 R) :=
  match m with
  | Identity => Ok x
  | Linear i o w b => linear4 i o w b x
  | Conv2d i o k w b => conv2d i o k w b x
  | LayerNorm n eps w b => layer_norm4 n eps w b x
  end.

(** [nn.Sequential(nn.AdaptiveAvgPool2d(output_size), nn.Flatten(start_dim=1),
    norm)]. *)
Record GlobalPool : Type := {
  pool_output_size : nat * nat;
  pool_norm : Layer
}.

Definition global_pool_call (g : GlobalPool) (x : Tensor4 R)
    : Result (Tensor2 R) :=
  p <- adaptive_avg_pool2d (pool_output_size g) x ;;
  call2 (pool_norm g) (flatten p).

(** [nn.Upsample(scale_factor, mode, align_corners)]. *)
Record Upsample : Type := {
  scale_factor : nat;
  mode : InterpMode;
  align_corners : bool
}.

Definition upsample_call (u : Upsample) (x : Tensor4 R) : Result (Tensor4 R) :=
  interpolate (scale_factor u) (mode u) (align_corners u) x.

(** The values of the learned parameters, one entry per parameter tensor
    a constructed backbone can own.  torch draws them at construction and
    training moves them; the model takes them as given. *)
Record StateDict : Type := {
  vel_emb_weight : nat -> nat -> R;
  vel_emb_bias : nat -> R;
  image_global_pool_weight : nat -> R;
  image_global_pool_bias : nat -> R;
  lidar_global_pool_weight : nat -> R;
  lidar_global_pool_bias : nat -> R;
  change_channel_conv_image_weight : nat -> nat -> nat -> nat -> R;
  change_channel_conv_image_bias : nat -> R;
  change_channel_conv_lidar_weight : nat -> nat -> nat -> nat -> R;
  change_channel_conv_lidar_bias : nat -> R;
  c5_conv_weight : nat -> nat -> nat -> nat -> R;
  c5_conv_bias : nat -> R;
  up_conv5_weight : nat -> nat -> nat -> nat -> R;
  up_conv5_bias : nat -> R;
  up_conv4_weight : nat -> nat -> nat -> nat -> R;
  up_conv4_bias : nat -> R;
  up_conv3_weight : nat -> nat -> nat -> nat -> R;
  up_conv3_bias : nat -> R
}.

(* ------------------------------------------------------------------ *)
(** ** class BackboneBase *)

(** The attributes of a constructed object. *)
Record BackboneBase : Type := {
  config : Config.t;
  image_architecture : string;
  lidar_architecture : string;
  use_velocity : bool;
  use_velocity_final : bool;
  vel_emb : Layer;
  avgpool_img : nat * nat;            (* nn.AdaptiveAvgPool2d(output_size) *)
  avgpool_lidar : nat * nat;
  image_global_pool : GlobalPool;
  lidar_global_pool : GlobalPool;
  image_encoder : Encoder.t;
  lidar_encoder : Encoder.t;
  change_channel_conv_image : Layer;
  change_channel_conv_lidar : Layer;
  c5_conv : Layer;
  upsample : Upsample;
  up_conv5 : Layer;
  up_conv4 : Layer;
  up_conv3 : Layer
}.

(** [_make_global_pool(self, architecture)]; of [self] it reads the
    configuration only.  [weight], [bias] are the LayerNorm's parameters. *)
Definition _make_global_pool (config : Config.t) (architecture : string)
    (weight bias : nat -> R) : GlobalPool :=
  {| pool_output_size := (1, 1);
     pool_norm :=
       if startswith architecture "convnext"
       then LayerNorm (Config.perception_output_features config)
                      (Qmake 1 1000000) weight bias
       else Identity |}.

(** [BackboneBase.__init__]. *)
Definition __init__ (config : Config.t)
    (image_architecture lidar_architecture : string) (use_velocity : bool)
    (sd : StateDict) : Result BackboneBase :=
  let pof := Config.perception_output_features config in
  let vel_emb :=
    if use_velocity then Linear 1 pof (vel_emb_weight sd) (vel_emb_bias sd)
    else Identity in
  let avgpool_img :=
    (Config.img_vert_anchors config, Config.img_horz_anchors config) in
  let avgpool_lidar :=
    (Config.lidar_vert_anchors config, Config.lidar_horz_anchors config) in
  let image_global_pool :=
    _make_global_pool config image_architecture
      (image_global_pool_weight sd) (image_global_pool_bias sd) in
  let lidar_global_pool :=
    _make_global_pool config lidar_architecture
      (lidar_global_pool_weight sd) (lidar_global_pool_bias sd) in
  image_encoder <- ImageEncoder image_architecture true ;;
  in_channels <- (if Config.use_point_pillars config
                  then last_item (Config.num_features config)
                  else Ok (2 * Config.lidar_seq_len config)) ;;
  let in_channels :=
    if Config.use_target_point_image config then in_channels + 1
    else in_channels in
  lidar_encoder <- LidarEncoder lidar_architecture in_channels ;;
  (* Init convert channels *)
  let out_feature_dim := Encoder.num_features image_encoder in
  let convs :=
    if out_feature_dim =? pof then (Identity, Identity)
    else (Conv2d out_feature_dim pof (1, 1)
            (change_channel_conv_image_weight sd)
            (change_channel_conv_image_bias sd),
          Conv2d out_feature_dim pof (1, 1)
            (change_channel_conv_lidar_weight sd)
            (change_channel_conv_lidar_bias sd)) in
  (* FPN fusion *)
  let channel := Config.bev_features_chanels config in
  Ok {| config := config;
        image_architecture := image_architecture;
        lidar_architecture := lidar_architecture;
        use_velocity := use_velocity;
        use_velocity_final := use_velocity;
        vel_emb := vel_emb;
        avgpool_img := avgpool_img;
        avgpool_lidar := avgpool_lidar;
        image_global_pool := image_global_pool;
        lidar_global_pool := lidar_global_pool;
        image_encoder := image_encoder;
        lidar_encoder := lidar_encoder;
        change_channel_conv_image := fst convs;
        change_channel_conv_lidar := snd convs;
        (* lateral *)
        c5_conv := Conv2d pof channel (1, 1) (c5_conv_weight sd) (c5_conv_bias sd);
        (* top down *)
        upsample := {| scale_factor := Config.bev_upsample_factor config;
                       mode := bilinear;
                       align_corners := false |};
        up_conv5 := Conv2d channel channel (1, 1)
                      (up_conv5_weight sd) (up_conv5_bias sd);
        up_conv4 := Conv2d channel channel (1, 1)
                      (up_conv4_weight sd) (up_conv4_bias sd);
        up_conv3 := Conv2d channel channel (1, 1)
                      (up_conv3_weight sd) (up_conv3_bias sd) |}.

(** [BackboneBase.top_down]. *)
Definition top_down (self : BackboneBase) (x : Tensor4 R) : Result (Tensor4 R) :=
  c5 <- call4 (c5_conv self) x ;;
  let p5 := relu c5 in
  u5 <- upsample_call (upsample self) p5 ;;
  c4 <- call4 (up_conv5 self) u5 ;;
  let p4 := relu c4 in
  u4 <- upsample_call (upsample self) p4 ;;
  c3 <- call4 (up_conv4 self) u4 ;;
  let p3 := relu c3 in
  u3 <- upsample_call (upsample self) p3 ;;
  c2 <- call4 (up_conv3 self) u3 ;;
  let p2 := relu c2 in
  Ok p2.

(** [BackboneBase.process_image]. *)
Definition process_image (self : BackboneBase) (image : Tensor4 R)
    : Result (Tensor4 R) :=
  if Encoder.normalize (image_encoder self) then normalize_imagenet image
  else Ok image.

(** [BackboneBase.process_lidar]. *)
Definition process_lidar (self : BackboneBase) (lidar : Tensor4 R) : Tensor4 R :=
  lidar.

(** The signature of the [encoder] method. *)
Definition encoder_method : Type :=
  BackboneBase -> Tensor4 R -> Tensor4 R -> Tensor2 R -> Points -> Points ->
  Result (Tensor4 R * Tensor4 R).

(** [BackboneBase.encoder]: the abstract encode step. *)
Definition encoder : encoder_method :=
  fun self image lidar velocity bev_points img_points =>
    Raise NotImplementedError.

(** The class of an object decides which [encoder] a call [self.encoder]
    reaches: the one above, or a subclass's override. *)
Record BackboneClass : Type := {
  resolve_encoder : encoder_method
}.

Definition BackboneBase_class : BackboneClass :=
  {| resolve_encoder := encoder |}.

(** [BackboneBase.forward], on an object of class [cls]. *)
Definition forward (cls : BackboneClass) (self : BackboneBase)
    (image lidar : Tensor4 R) (velocity : Tensor2 R)
    (bev_points img_points : Points)
    : Result (Tensor4 R * Tensor4 R * Tensor2 R) :=
  image <- process_image self image ;;
  let lidar := process_lidar self lidar in
  ' (image_features, lidar_features) <-
      resolve_encoder cls self image lidar velocity bev_points img_points ;;
  image_features_grid <- call4 (change_channel_conv_image self) image_features ;;
  lidar_features_grid <- call4 (change_channel_conv_lidar self) lidar_features ;;
  image_features_pooled <-
    global_pool_call (image_global_pool self) image_features_grid ;;
  lidar_features_pooled <-
    global_pool_call (image_global_pool self) lidar_features_grid ;;
  (* Fusion *)
  fused_features <- tadd2 image_features_pooled lidar_features_pooled ;;
  fused_features <-
    (if use_velocity_final self then
       velocity_embeddings <- call2 (vel_emb self) velocity ;;
       tadd2 fused_features velocity_embeddings
     else Ok fused_features) ;;
  decoded <- top_down self lidar_features_grid ;;
  Ok (decoded, image_features_grid, fused_features).

(** [BackboneBase._make_gpt]. *)
Definition _make_gpt (self : BackboneBase) (in_features : nat) : GPTObject :=
  let config := config self in
  GPT {| GPTArgs.n_embd := in_features;
         GPTArgs.n_head := Config.n_head config;
         GPTArgs.block_exp := Config.block_exp config;
         GPTArgs.n_layer := Config.n_layer config;
         GPTArgs.img_anchors := Config.img_anchors config;
         GPTArgs.lidar_anchors := Config.lidar_anchors config;
         GPTArgs.seq_len := Config.seq_len config;
         GPTArgs.embd_pdrop := Config.embd_pdrop config;
         GPTArgs.attn_pdrop := Config.attn_pdrop config;
         GPTArgs.resid_pdrop := Config.resid_pdrop config;
         GPTArgs.config := config;
         GPTArgs.use_velocity := use_velocity self |}.

End Backbone.

Arguments Identity {R}.
Arguments BackboneClass R {IM}.
Arguments encoder_method R {IM}.
Arguments BackboneBase_class {R IM}.
Arguments encoder {R IM} _ _ _ _ _ _.

(* ------------------------------------------------------------------ *)
(** ** The forward contract, in the specification's words *)

Section Contract.

Variable R : Type.
Context {SR : Scalar R} {IM : Imports R}.

(** Section 4.5 of the specification, step by step: (1) preprocess the
    image (ImageNet normalization when the image encoder declares it) and
    pass the LiDAR input through; (2) run the encode step; (3) normalize the
    channel width of both maps; (4) pool both with the image-branch pooler,
    sum, and add the velocity embedding when velocity conditioning is on;
    (5) decode the channel-normalized LiDAR map top-down; (6) return
    (decoded LiDAR map, channel-normalized image map, fused embedding). *)
Inductive forward_contract (cls : BackboneClass R) (self : BackboneBase R)
    (image lidar : Tensor4 R) (velocity : Tensor2 R)
    (bev_points img_points : Points)
    : Tensor4 R * Tensor4 R * Tensor2 R -> Prop :=
| forward_contract_intro
    (image' raw_image raw_lidar image_grid lidar_grid decoded : Tensor4 R)
    (image_pooled lidar_pooled pooled_sum fused : Tensor2 R) :
    (if Encoder.normalize (image_encoder self)
     then normalize_imagenet image = Ok image'
     else image' = image) ->
    resolve_encoder cls self image' lidar velocity bev_points img_points
      = Ok (raw_image, raw_lidar) ->
    call4 (change_channel_conv_image self) raw_image = Ok image_grid ->
    call4 (change_channel_conv_lidar self) raw_lidar = Ok lidar_grid ->
    global_pool_call (image_global_pool self) image_grid = Ok image_pooled ->
    global_pool_call (image_global_pool self) lidar_grid = Ok lidar_pooled ->
    tadd2 image_pooled lidar_pooled = Ok pooled_sum ->
    (if use_velocity_final self
     then exists velocity_embedding,
            call2 (vel_emb self) velocity = Ok velocity_embedding /\
            tadd2 pooled_sum velocity_embedding = Ok fused
     else fused = pooled_sum) ->
    top_down self lidar_grid = Ok decoded ->
    forward_contract cls self image lidar velocity bev_points img_points
      (decoded, image_grid, fused).

(** A (rows, cols) tensor filled with one value. *)
Definition full2 (r c : nat) (v : R) : Tensor2 R := mkT2 r c (fun _ _ => v).

(** A (batch, chans, height, width) tensor filled with one value. *)
Definition full4 (b c h w : nat) (v : R) : Tensor4 R :=
  mkT4 b c h w (fun _ _ _ _ => v).

(** [self.lidar_global_pool = pool]: the object with that one attribute
    replaced. *)
Definition set_lidar_global_pool (self : BackboneBase R) (pool : GlobalPool R)
    : BackboneBase R :=
  {| config := config self;
     image_architecture := image_architecture self;
     lidar_architecture := lidar_architecture self;
     use_velocity := use_velocity self;
     use_velocity_final := use_velocity_final self;
     vel_emb := vel_emb self;
     avgpool_img := avgpool_img self;
     avgpool_lidar := avgpool_lidar self;
     image_global_pool := image_global_pool self;
     lidar_global_pool := pool;
     image_encoder := image_encoder self;
     lidar_encoder := lidar_encoder self;
     change_channel_conv_image := change_channel_conv_image self;
     change_channel_conv_lidar := change_channel_conv_lidar self;
     c5_conv := c5_conv self;
     upsample := upsample self;
     up_conv5 := up_conv5 self;
     up_conv4 := up_conv4 self;
     up_conv3 := up_conv3 self |}.

End Contract.

(* ------------------------------------------------------------------ *)
(** ** A small concrete instance *)

(** Integer arithmetic for the scalars, a two-line encoder table and a tiny
    configuration: enough to run every definition above. *)
Module Demo.

Definition Scalar_Z : Scalar Z :=
  {| of_Q := Qfloor; fadd := Z.add; fsub := Z.sub; fmul := Z.mul;
     fdiv := Z.div; fsqrt := Z.sqrt; fmax := Z.max |}.

(** resnet* encoders emit 2 channels, every other architecture 3. *)
Definition width_of (architecture : string) : nat :=
  if startswith architecture "resnet" then 2 else 3.

Definition imports : Imports Z :=
  {| Points := unit;
     GPTObject := GPTArgs.t;
     GPT := fun args => args;
     ImageEncoder := fun architecture normalize =>
       Ok {| Encoder.num_features := width_of architecture;
             Encoder.normalize := normalize |};
     LidarEncoder := fun architecture in_channels =>
       Ok {| Encoder.num_features := width_of architecture;
             Encoder.normalize := false |};
     normalize_imagenet := fun x =>
       Ok (mkT4 (batch x) (chans x) (height x) (width x)
             (fun n c h w => (at4 x n c h w - 1)%Z)) |}.

Definition cfg (perception_output_features : nat) : Config.t :=
  {| Config.perception_output_features := perception_output_features;
     Config.img_vert_anchors := 1;
     Config.img_horz_anchors := 1;
     Config.lidar_vert_anchors := 1;
     Config.lidar_horz_anchors := 1;
     Config.num_features := [4];
     Config.use_point_pillars := false;
     Config.lidar_seq_len := 1;
     Config.use_target_point_image := false;
     Config.bev_features_chanels := 1;
     Config.bev_upsample_factor := 2;
     Config.n_head := 1;
     Config.block_exp := 1;
     Config.n_layer := 1;
     Config.img_anchors := 1;
     Config.lidar_anchors := 1;
     Config.seq_len := 1;
     Config.embd_pdrop := Qmake 0 1;
     Config.attn_pdrop := Qmake 0 1;
     Config.resid_pdrop := Qmake 0 1 |}.

(** Every weight 1; the biases are told apart by their values. *)
Definition sd : StateDict Z :=
  {| vel_emb_weight := fun _ _ => 1%Z;
     vel_emb_bias := fun j => (10 + Z.of_nat j)%Z;
     image_global_pool_weight := fun _ => 1%Z;
     image_global_pool_bias := fun _ => 0%Z;
     lidar_global_pool_weight := fun _ => 1%Z;
     lidar_global_pool_bias := fun _ => 0%Z;
     change_channel_conv_image_weight := fun _ _ _ _ => 1%Z;
     change_channel_conv_image_bias := fun _ => 0%Z;
     change_channel_conv_lidar_weight := fun _ _ _ _ => 2%Z;
     change_channel_conv_lidar_bias := fun _ => 0%Z;
     c5_conv_weight := fun _ _ _ _ => 1%Z;
     c5_conv_bias := fun _ => 0%Z;
     up_conv5_weight := fun _ _ _ _ => 1%Z;
     up_conv5_bias := fun _ => 0%Z;
     up_conv4_weight := fun _ _ _ _ => 1%Z;
     up_conv4_bias := fun _ => 0%Z;
     up_conv3_weight := fun _ _ _ _ => 1%Z;
     up_conv3_bias := fun _ => 0%Z |}.

(** A constructor call that returned: its object. *)
Definition returned {A : Type} (r : Result A)
    : match r with Ok _ => A | Raise _ => unit end :=
  match r with
  | Ok a => a
  | Raise _ => tt
  end.

(** BackboneBase(cfg 2, 'resnet34', 'resnet18', use_velocity=False):
    both channel normalizers are the identity. *)
Definition plain : BackboneBase Z :=
  returned (__init__ (IM := imports) (cfg 2) "resnet34" "resnet18" false sd).

(** The same with use_velocity=True. *)
Definition with_velocity : BackboneBase Z :=
  returned (__init__ (IM := imports) (cfg 2) "resnet34" "resnet18" true sd).

(** An image encoder of width 3 against a perception width of 2: both
    channel normalizers are 1x1 convolutions. *)
Definition projecting : BackboneBase Z :=
  returned (__init__ (IM := imports) (cfg 2) "convnext_tiny" "resnet18" false sd).

(** A subclass whose encode step hands its inputs on as feature maps. *)
Definition passthrough : BackboneClass Z (IM := imports) :=
  {| resolve_encoder := fun self image lidar velocity bev_points img_points =>
       Ok (image, lidar) |}.

(** A subclass whose encode step scales the image features by the speed. *)
Definition speed_scaled : BackboneClass Z (IM := imports) :=
  {| resolve_encoder := fun self image lidar velocity bev_points img_points =>
       Ok (mkT4 (batch image) (chans image) (height image) (width image)
             (fun n c h w => (at4 image n c h w * at2 velocity 0 0)%Z),
           lidar) |}.

End Demo.

(* ------------------------------------------------------------------ *)
(** * Properties *)

Unset Implicit Arguments.

Section Properties.

Variable R : Type.
Context {SR : Scalar R} {IM : Imports R}.

(** ** Results *)

Lemma bind_Ok (A B : Type) (c : Result A) (k : A -> Result B) (b : B) :
  bind c k = Ok b -> exists a, c = Ok a /\ k a = Ok b.
Proof.
  destruct c as [a|e]; simpl; intro H.
  - exists a; split; [reflexivity | exact H].
  - discriminate H.
Qed.

Lemma bind_Raise (A B : Type) (c : Result A) (k : A -> Result B) (e : Exception) :
  bind c k = Raise e -> c = Raise e \/ exists a, c = Ok a /\ k a = Raise e.
Proof.
  destruct c as [a|e']; simpl; intro H.
  - right; exists a; split; [reflexivity | exact H].
  - left; injection H as ->; reflexivity.
Qed.

(** Peel the binds of a call that returned. *)
Ltac peel H :=
  let a := fresh "v" in
  let Ha := fresh "E" in
  apply bind_Ok in H; destruct H as (a & Ha & H).

(** ** Shapes through the layers *)

Lemma conv2d_1x1_ok i o (w : nat -> nat -> nat -> nat -> R) b x :
  chans x = i -> 0 < height x -> 0 < width x ->
  exists y, conv2d i o (1, 1) w b x = Ok y /\
            shape4 y = (batch x, o, height x, width x).
Proof.
  intros Hc Hh Hw. unfold conv2d.
  apply Nat.eqb_eq in Hc. rewrite Hc.
  assert (Eh : (1 <=? height x) = true) by (apply Nat.leb_le; lia).
  assert (Ew : (1 <=? width x) = true) by (apply Nat.leb_le; lia).
  rewrite Eh, Ew. simpl. eexists; split; [reflexivity|].
  unfold shape4; simpl. repeat f_equal; lia.
Qed.

Lemma conv2d_wrong_channels i o k (w : nat -> nat -> nat -> nat -> R) b x :
  chans x <> i -> conv2d i o k w b x = Raise RuntimeError.
Proof.
  intro Hc. unfold conv2d; destruct k as [kh kw].
  apply Nat.eqb_neq in Hc. rewrite Hc. reflexivity.
Qed.

Lemma interpolate_ok s m a (x : Tensor4 R) :
  0 < chans x -> 0 < height x -> 0 < width x -> 0 < s ->
  exists y, interpolate s m a x = Ok y /\
            shape4 y = (batch x, chans x, height x * s, width x * s).
Proof.
  intros Hc Hh Hw Hs. unfold interpolate.
  assert (E1 : (0 <? chans x) = true) by (apply Nat.ltb_lt; assumption).
  assert (E2 : (0 <? height x) = true) by (apply Nat.ltb_lt; assumption).
  assert (E3 : (0 <? width x) = true) by (apply Nat.ltb_lt; assumption).
  assert (E4 : (0 <? height x * s) = true) by (apply Nat.ltb_lt; nia).
  assert (E5 : (0 <? width x * s) = true) by (apply Nat.ltb_lt; nia).
  rewrite E1, E2, E3, E4, E5. simpl. eexists; split; reflexivity.
Qed.

Lemma adaptive_avg_pool2d_ok oh ow (x : Tensor4 R) :
  0 < chans x -> 0 < height x -> 0 < width x ->
  exists y, adaptive_avg_pool2d (oh, ow) x = Ok y /\
            shape4 y = (batch x, chans x, oh, ow).
Proof.
  intros Hc Hh Hw. unfold adaptive_avg_pool2d.
  assert (E1 : (0 <? chans x) = true) by (apply Nat.ltb_lt; assumption).
  assert (E2 : (0 <? height x) = true) by (apply Nat.ltb_lt; assumption).
  assert (E3 : (0 <? width x) = true) by (apply Nat.ltb_lt; assumption).
  rewrite E1, E2, E3. simpl. eexists; split; reflexivity.
Qed.

Lemma flatten_shape (x : Tensor4 R) b c :
  shape4 x = (b, c, 1, 1) -> shape2 (flatten x) = (b, c).
Proof.
  unfold shape4, shape2, flatten; simpl. intro H; injection H as -> -> -> ->.
  f_equal; lia.
Qed.

Lemma layer_norm2_ok n eps (w b : nat -> R) (x : Tensor2 R) :
  cols x = n ->
  exists y, layer_norm2 n eps w b x = Ok y /\ shape2 y = shape2 x.
Proof.
  intro Hc. unfold layer_norm2. apply Nat.eqb_eq in Hc. rewrite Hc.
  eexists; split; reflexivity.
Qed.

Lemma tadd2_same_shape (x y : Tensor2 R) :
  shape2 x = shape2 y ->
  exists z, tadd2 x y = Ok z /\ shape2 z = shape2 x /\
            forall i j, i < rows x -> j < cols x ->
              at2 z i j = fadd (at2 x i j) (at2 y i j).
Proof.
  unfold shape2; intro H; injection H as Hr Hc.
  unfold tadd2, broadcast_dim. rewrite <- Hr, <- Hc, !Nat.eqb_refl.
  eexists; split; [reflexivity|]. split; [reflexivity|].
  intros i j Hi Hj; simpl. unfold bidx.
  destruct (rows x =? 1) eqn:E1; destruct (cols x =? 1) eqn:E2;
    try apply Nat.eqb_eq in E1; try apply Nat.eqb_eq in E2;
    repeat match goal with
           | H1 : ?d = 1, H2 : ?i < ?d |- _ =>
               assert (i = 0) by lia; subst i; clear H2
           end; reflexivity.
Qed.

(** ** What the constructor builds *)

(** The object a successful [__init__] returns, attribute by attribute. *)
Lemma init_inv cfg ia la uv (sd : StateDict R) self :
  __init__ cfg ia la uv sd = Ok self ->
  let pof := Config.perception_output_features cfg in
  let channel := Config.bev_features_chanels cfg in
  exists ie le,
    ImageEncoder ia true = Ok ie /\
    image_encoder self = ie /\ lidar_encoder self = le /\
    config self = cfg /\
    use_velocity self = uv /\ use_velocity_final self = uv /\
    vel_emb self =
      (if uv then Linear 1 pof (vel_emb_weight sd) (vel_emb_bias sd)
       else Identity) /\
    image_global_pool self =
      _make_global_pool cfg ia (image_global_pool_weight sd)
        (image_global_pool_bias sd) /\
    lidar_global_pool self =
      _make_global_pool cfg la (lidar_global_pool_weight sd)
        (lidar_global_pool_bias sd) /\
    change_channel_conv_image self =
      (if Encoder.num_features ie =? pof then Identity
       else Conv2d (Encoder.num_features ie) pof (1, 1)
              (change_channel_conv_image_weight sd)
              (change_channel_conv_image_bias sd)) /\
    change_channel_conv_lidar self =
      (if Encoder.num_features ie =? pof then Identity
       else Conv2d (Encoder.num_features ie) pof (1, 1)
              (change_channel_conv_lidar_weight sd)
              (change_channel_conv_lidar_bias sd)) /\
    c5_conv self = Conv2d pof channel (1, 1) (c5_conv_weight sd) (c5_conv_bias sd) /\
    upsample self = {| scale_factor := Config.bev_upsample_factor cfg;
                       mode := bilinear; align_corners := false |} /\
    up_conv5 self = Conv2d channel channel (1, 1)
                      (up_conv5_weight sd) (up_conv5_bias sd) /\
    up_conv4 self = Conv2d channel channel (1, 1)
                      (up_conv4_weight sd) (up_conv4_bias sd) /\
    up_conv3 self = Conv2d channel channel (1, 1)
                      (up_conv3_weight sd) (up_conv3_bias sd).
Proof.
  unfold __init__. intro H.
  peel H. peel H. peel H. injection H as <-.
  exists v, v1. simpl.
  destruct (Encoder.num_features v =? Config.perception_output_features cfg);
    simpl; repeat split; assumption || reflexivity.
Qed.

(** The constructor's choice for the two channel normalizers. *)
Lemma init_channel_convs cfg ia la uv (sd : StateDict R) self :
  __init__ cfg ia la uv sd = Ok self ->
  let T := Config.perception_output_features cfg in
  let W := Encoder.num_features (image_encoder self) in
  ImageEncoder ia true = Ok (image_encoder self) /\
  ((W = T /\
    change_channel_conv_image self = Identity /\
    change_channel_conv_lidar self = Identity) \/
   (W <> T /\
    change_channel_conv_image self =
      Conv2d W T (1, 1) (change_channel_conv_image_weight sd)
                        (change_channel_conv_image_bias sd) /\
    change_channel_conv_lidar self =
      Conv2d W T (1, 1) (change_channel_conv_lidar_weight sd)
                        (change_channel_conv_lidar_bias sd))).
Proof.
  intros Hinit T W.
  destruct (init_inv _ _ _ _ _ _ Hinit)
    as (ie & le & I & Hie & _ & _ & _ & _ & _ & _ & _ & Hci & Hcl & _).
  subst ie. split; [exact I|].
  fold T in Hci, Hcl. fold W in Hci, Hcl. revert Hci Hcl.
  destruct (Nat.eqb_spec W T) as [Heq | Hne]; intros Hci Hcl.
  - left. repeat split; assumption.
  - right. repeat split; assumption.
Qed.

(* ------------------------------------------------------------------ *)
(** ** The channel normalizers *)

(** C1. For every configuration the constructor accepts, each channel
    normalizer ([change_channel_conv_image], [change_channel_conv_lidar]) is
    [nn.Identity] exactly when the encoder output width the constructor
    reads ([out_feature_dim]) equals [perception_output_features], and then
    returns its input unchanged.  Otherwise each is a 1x1 convolution from
    that width to [perception_output_features], the image branch on its own
    weight and bias and the LiDAR branch on its own, and on a feature map of
    that width and any positive spatial size it returns a map with exactly
    [perception_output_features] channels and the same batch and spatial
    size. *)
Theorem channel_normalizer_identity_iff_width
    cfg ia la uv (sd : StateDict R) self :
  __init__ cfg ia la uv sd = Ok self ->
  let T := Config.perception_output_features cfg in
  let W := Encoder.num_features (image_encoder self) in
  (change_channel_conv_image self = Identity <-> W = T) /\
  (change_channel_conv_lidar self = Identity <-> W = T) /\
  (W = T -> forall x,
     call4 (change_channel_conv_image self) x = Ok x /\
     call4 (change_channel_conv_lidar self) x = Ok x) /\
  (W <> T ->
     change_channel_conv_image self =
       Conv2d W T (1, 1) (change_channel_conv_image_weight sd)
                         (change_channel_conv_image_bias sd) /\
     change_channel_conv_lidar self =
       Conv2d W T (1, 1) (change_channel_conv_lidar_weight sd)
                         (change_channel_conv_lidar_bias sd) /\
     forall x, chans x = W -> 0 < height x -> 0 < width x ->
       exists y_image y_lidar,
         call4 (change_channel_conv_image self) x = Ok y_image /\
         call4 (change_channel_conv_lidar self) x = Ok y_lidar /\
         shape4 y_image = (batch x, T, height x, width x) /\
         shape4 y_lidar = (batch x, T, height x, width x)).
Proof.
  intros Hinit T W.
  destruct (init_channel_convs _ _ _ _ _ _ Hinit)
    as (_ & [(Heq & Hci & Hcl) | (Hne & Hci & Hcl)]);
    fold T in Heq || fold T in Hne; fold T in Hci, Hcl;
    fold W in Heq || fold W in Hne; fold W in Hci, Hcl;
    rewrite Hci, Hcl.
  - split; [split; auto|]. split; [split; auto|].
    split; [intros _ x; split; reflexivity|].
    intro Hne; contradiction.
  - split; [split; [discriminate | intro; contradiction]|].
    split; [split; [discriminate | intro; contradiction]|].
    split; [intro; contradiction|].
    intros _. split; [reflexivity|]. split; [reflexivity|].
    intros x Hc Hh Hw. cbn [call4].
    destruct (conv2d_1x1_ok W T (change_channel_conv_image_weight sd)
                (change_channel_conv_image_bias sd) x Hc Hh Hw)
      as (yi & Ei & Si).
    destruct (conv2d_1x1_ok W T (change_channel_conv_lidar_weight sd)
                (change_channel_conv_lidar_bias sd) x Hc Hh Hw)
      as (yl & El & Sl).
    exists yi, yl. repeat split; assumption.
Qed.

(** C10. Which module each channel normalizer is, and the input width of
    the LiDAR-branch projection, follow from the image encoder's
    [num_features] alone: two constructions that differ in the LiDAR
    architecture (hence in the LiDAR encoder) get the same two normalizers.
    When the image width equals [perception_output_features] both are the
    identity, whatever the LiDAR encoder's width, and the LiDAR map passes
    unchanged.  Otherwise the LiDAR-branch convolution takes [in_channels]
    from the image encoder: it accepts a map of the image encoder's width
    and raises on any other channel count. *)
Theorem channel_normalizers_follow_image_encoder
    cfg ia la1 la2 uv (sd : StateDict R) self1 self2 :
  __init__ cfg ia la1 uv sd = Ok self1 ->
  __init__ cfg ia la2 uv sd = Ok self2 ->
  let T := Config.perception_output_features cfg in
  let W := Encoder.num_features (image_encoder self1) in
  change_channel_conv_image self1 = change_channel_conv_image self2 /\
  change_channel_conv_lidar self1 = change_channel_conv_lidar self2 /\
  (W = T ->
     change_channel_conv_image self1 = Identity /\
     change_channel_conv_lidar self1 = Identity /\
     forall x, call4 (change_channel_conv_lidar self1) x = Ok x) /\
  (W <> T ->
     (exists w b, change_channel_conv_lidar self1 = Conv2d W T (1, 1) w b) /\
     (forall x, chans x = W -> 0 < height x -> 0 < width x ->
        exists y, call4 (change_channel_conv_lidar self1) x = Ok y) /\
     (forall x, chans x <> W ->
        call4 (change_channel_conv_lidar self1) x = Raise RuntimeError)).
Proof.
  intros H1 H2 T W.
  destruct (init_channel_convs _ _ _ _ _ _ H1) as (I1 & C1).
  destruct (init_channel_convs _ _ _ _ _ _ H2) as (I2 & C2).
  assert (Hie : image_encoder self2 = image_encoder self1) by congruence.
  rewrite Hie in C2. fold T in C1, C2. fold W in C1, C2.
  destruct C1 as [(Heq & Hci1 & Hcl1) | (Hne & Hci1 & Hcl1)];
    destruct C2 as [(Heq2 & Hci2 & Hcl2) | (Hne2 & Hci2 & Hcl2)];
    try contradiction.
  - rewrite Hci1, Hcl1, Hci2, Hcl2.
    split; [reflexivity|]. split; [reflexivity|].
    split; [|intro; contradiction].
    intros _. repeat split.
  - rewrite Hci1, Hcl1, Hci2, Hcl2.
    split; [reflexivity|]. split; [reflexivity|].
    split; [intro; contradiction|].
    intros _. split; [eauto|]. split.
    + intros x Hc Hh Hw. cbn [call4].
      destruct (conv2d_1x1_ok W T (change_channel_conv_lidar_weight sd)
                  (change_channel_conv_lidar_bias sd) x Hc Hh Hw)
        as (y & E & _).
      exists y; exact E.
    + intros x Hc. cbn [call4]. apply conv2d_wrong_channels; exact Hc.
Qed.

(* ------------------------------------------------------------------ *)
(** ** The global pooler *)

Lemma call2_norm_shape cfg arch (w b : nat -> R) (x : Tensor2 R) :
  cols x = Config.perception_output_features cfg ->
  exists y, call2 (pool_norm (_make_global_pool cfg arch w b)) x = Ok y /\
            shape2 y = shape2 x.
Proof.
  intro Hc. unfold _make_global_pool; cbn [pool_norm].
  destruct (startswith arch "convnext"); cbn [call2].
  - apply layer_norm2_ok; exact Hc.
  - exists x; split; reflexivity.
Qed.

Lemma global_pool_output_shape_aux cfg arch (w b : nat -> R) (x : Tensor4 R) :
  0 < Config.perception_output_features cfg ->
  chans x = Config.perception_output_features cfg ->
  0 < height x -> 0 < width x ->
  exists y, global_pool_call (_make_global_pool cfg arch w b) x = Ok y /\
            shape2 y = (batch x, Config.perception_output_features cfg).
Proof.
  intros Hpof Hc Hh Hw.
  assert (Hc0 : 0 < chans x) by lia.
  destruct (adaptive_avg_pool2d_ok 1 1 x Hc0 Hh Hw) as (cell & Ecell & Scell).
  rewrite Hc in Scell.
  pose proof (flatten_shape cell _ _ Scell) as Sflat.
  assert (Hcols : cols (flatten cell) = Config.perception_output_features cfg).
  { unfold shape2 in Sflat. injection Sflat as _ Hcc. exact Hcc. }
  destruct (call2_norm_shape cfg arch w b (flatten cell) Hcols) as (y & Ey & Sy).
  exists y. split.
  - unfold global_pool_call. cbn [pool_output_size _make_global_pool].
    rewrite Ecell. cbn [bind]. exact Ey.
  - rewrite Sy. exact Sflat.
Qed.

(** C8. On every feature map of [perception_output_features] channels, of
    whatever positive spatial size, the global pooler returns a tensor of
    shape (batch, perception_output_features): adaptive average pooling
    brings the map to one 1x1 cell per channel, flattening turns that into a
    (batch, channels) matrix, and the normalization step keeps the shape. *)
Theorem global_pool_output_shape cfg arch (w b : nat -> R) (x : Tensor4 R) :
  let pof := Config.perception_output_features cfg in
  let pool := _make_global_pool cfg arch w b in
  0 < pof -> chans x = pof -> 0 < height x -> 0 < width x ->
  pool_output_size pool = (1, 1) /\
  exists cell y,
    adaptive_avg_pool2d (1, 1) x = Ok cell /\
    shape4 cell = (batch x, pof, 1, 1) /\
    shape2 (flatten cell) = (batch x, pof) /\
    call2 (pool_norm pool) (flatten cell) = Ok y /\
    global_pool_call pool x = Ok y /\
    shape2 y = (batch x, pof).
Proof.
  intros pof pool Hpof Hc Hh Hw. split; [reflexivity|].
  assert (Hc0 : 0 < chans x) by lia.
  destruct (adaptive_avg_pool2d_ok 1 1 x Hc0 Hh Hw) as (cell & Ecell & Scell).
  rewrite Hc in Scell.
  pose proof (flatten_shape cell _ _ Scell) as Sflat.
  assert (Hcols : cols (flatten cell) = Config.perception_output_features cfg).
  { unfold shape2 in Sflat. injection Sflat as _ Hcc. exact Hcc. }
  destruct (call2_norm_shape cfg arch w b (flatten cell) Hcols) as (y & Ey & Sy).
  exists cell, y. repeat split; try assumption.
  - unfold global_pool_call. cbn [pool_output_size pool _make_global_pool].
    rewrite Ecell. cbn [bind]. exact Ey.
  - rewrite Sy. exact Sflat.
Qed.

(** C6. The third step of the pooler built for an architecture name is an
    [nn.LayerNorm] over [perception_output_features] with eps 1e-6 exactly
    when the name starts with 'convnext'; for every name starting with
    'resnet' or 'regnet' it is [nn.Identity].  Whatever the two names, the
    two poolers return tensors of the same shape on the same feature map. *)
Theorem global_pool_norm_by_family cfg (w b : nat -> R) :
  let pof := Config.perception_output_features cfg in
  (forall arch,
     pool_norm (_make_global_pool cfg arch w b)
       = LayerNorm pof (Qmake 1 1000000) w b
     <-> startswith arch "convnext" = true) /\
  (forall arch,
     pool_norm (_make_global_pool cfg arch w b) = Identity
     <-> startswith arch "convnext" = false) /\
  (forall rest,
     pool_norm (_make_global_pool cfg ("convnext" ++ rest) w b)
       = LayerNorm pof (Qmake 1 1000000) w b /\
     pool_norm (_make_global_pool cfg ("resnet" ++ rest) w b) = Identity /\
     pool_norm (_make_global_pool cfg ("regnet" ++ rest) w b) = Identity) /\
  (forall arch1 arch2 (x : Tensor4 R),
     0 < pof -> chans x = pof -> 0 < height x -> 0 < width x ->
     exists y1 y2,
       global_pool_call (_make_global_pool cfg arch1 w b) x = Ok y1 /\
       global_pool_call (_make_global_pool cfg arch2 w b) x = Ok y2 /\
       shape2 y1 = shape2 y2).
Proof.
  intro pof.
  split; [|split; [|split]].
  - intro arch. unfold _make_global_pool; cbn [pool_norm].
    destruct (startswith arch "convnext"); split;
      reflexivity || discriminate.
  - intro arch. unfold _make_global_pool; cbn [pool_norm].
    destruct (startswith arch "convnext"); split;
      reflexivity || discriminate.
  - intro rest. split; [|split]; try reflexivity.
    destruct rest; reflexivity.
  - intros arch1 arch2 x Hpof Hc Hh Hw.
    destruct (global_pool_output_shape_aux cfg arch1 w b x Hpof Hc Hh Hw)
      as (y1 & E1 & S1).
    destruct (global_pool_output_shape_aux cfg arch2 w b x Hpof Hc Hh Hw)
      as (y2 & E2 & S2).
    exists y1, y2. split; [exact E1|]. split; [exact E2|]. congruence.
Qed.

(* ------------------------------------------------------------------ *)
(** ** The top-down decoder *)

Lemma shape4_inv (y : Tensor4 R) b c h w :
  shape4 y = (b, c, h, w) ->
  batch y = b /\ chans y = c /\ height y = h /\ width y = w.
Proof.
  unfold shape4; intro H; injection H as -> -> -> ->. repeat split.
Qed.

(** One top-down stage: upsample, 1x1 convolution, ReLU. *)
Lemma top_down_stage s ch (wt : nat -> nat -> nat -> nat -> R) bs
    (p : Tensor4 R) b h w :
  0 < ch -> 0 < s -> 0 < h -> 0 < w ->
  shape4 p = (b, ch, h, w) ->
  exists u c,
    interpolate s bilinear false p = Ok u /\
    conv2d ch ch (1, 1) wt bs u = Ok c /\
    shape4 (relu c) = (b, ch, h * s, w * s).
Proof.
  intros Hch Hs Hh Hw Sp.
  destruct (shape4_inv p _ _ _ _ Sp) as (Pb & Pc & Ph & Pw).
  destruct (interpolate_ok s bilinear false p) as (u & Eu & Su); try lia.
  rewrite Pb, Pc, Ph, Pw in Su.
  destruct (shape4_inv u _ _ _ _ Su) as (Ub & Uc & Uh & Uw).
  destruct (conv2d_1x1_ok ch ch wt bs u) as (c & Ec & Sc); try nia.
  rewrite Ub, Uh, Uw in Sc.
  exists u, c. repeat split; assumption.
Qed.

(** C5. The top-down decoder of a constructed backbone is a lateral 1x1
    convolution from [perception_output_features] to [bev_features_chanels]
    followed by ReLU (P5), then exactly three stages, each a bilinear
    upsampling by [bev_upsample_factor] with align_corners=False, a 1x1
    convolution from [bev_features_chanels] to itself, and ReLU (P4, P3,
    P2); it returns P2.  On a map of spatial size (H, W) every level has
    [bev_features_chanels] channels and P2 has spatial size
    (H * s^3, W * s^3). *)
Theorem top_down_cascade cfg ia la uv (sd : StateDict R) self (x : Tensor4 R) :
  __init__ cfg ia la uv sd = Ok self ->
  let pof := Config.perception_output_features cfg in
  let ch := Config.bev_features_chanels cfg in
  let s := Config.bev_upsample_factor cfg in
  0 < ch -> 0 < s ->
  chans x = pof -> 0 < height x -> 0 < width x ->
  c5_conv self = Conv2d pof ch (1, 1) (c5_conv_weight sd) (c5_conv_bias sd) /\
  upsample self =
    {| scale_factor := s; mode := bilinear; align_corners := false |} /\
  up_conv5 self = Conv2d ch ch (1, 1) (up_conv5_weight sd) (up_conv5_bias sd) /\
  up_conv4 self = Conv2d ch ch (1, 1) (up_conv4_weight sd) (up_conv4_bias sd) /\
  up_conv3 self = Conv2d ch ch (1, 1) (up_conv3_weight sd) (up_conv3_bias sd) /\
  exists c5 u5 c4 u4 c3 u3 c2,
    let p5 := relu c5 in
    let p4 := relu c4 in
    let p3 := relu c3 in
    let p2 := relu c2 in
    call4 (c5_conv self) x = Ok c5 /\
    upsample_call (upsample self) p5 = Ok u5 /\
    call4 (up_conv5 self) u5 = Ok c4 /\
    upsample_call (upsample self) p4 = Ok u4 /\
    call4 (up_conv4 self) u4 = Ok c3 /\
    upsample_call (upsample self) p3 = Ok u3 /\
    call4 (up_conv3 self) u3 = Ok c2 /\
    top_down self x = Ok p2 /\
    shape4 p5 = (batch x, ch, height x, width x) /\
    shape4 p4 = (batch x, ch, height x * s, width x * s) /\
    shape4 p3 = (batch x, ch, height x * s ^ 2, width x * s ^ 2) /\
    shape4 p2 = (batch x, ch, height x * s ^ 3, width x * s ^ 3).
Proof.
  intros Hinit pof ch s Hch Hs Hc Hh Hw.
  destruct (init_inv _ _ _ _ _ _ Hinit)
    as (ie & le & _ & _ & _ & _ & _ & _ & _ & _ & _ & _ & _ &
        Hc5 & Hup & Hu5 & Hu4 & Hu3).
  fold pof in Hc5. fold ch in Hc5, Hu5, Hu4, Hu3. fold s in Hup.
  repeat (split; [assumption|]).
  destruct (conv2d_1x1_ok pof ch (c5_conv_weight sd) (c5_conv_bias sd) x
              Hc Hh Hw) as (c5 & E5 & S5).
  assert (P5 : shape4 (relu c5) = (batch x, ch, height x, width x))
    by exact S5.
  destruct (top_down_stage s ch (up_conv5_weight sd) (up_conv5_bias sd)
              (relu c5) _ _ _ Hch Hs Hh Hw P5) as (u5 & c4 & Eu5 & E4 & P4).
  assert (Hh1 : 0 < height x * s) by nia.
  assert (Hw1 : 0 < width x * s) by nia.
  destruct (top_down_stage s ch (up_conv4_weight sd) (up_conv4_bias sd)
              (relu c4) _ _ _ Hch Hs Hh1 Hw1 P4) as (u4 & c3 & Eu4 & E3 & P3).
  assert (Hh2 : 0 < height x * s * s) by nia.
  assert (Hw2 : 0 < width x * s * s) by nia.
  destruct (top_down_stage s ch (up_conv3_weight sd) (up_conv3_bias sd)
              (relu c3) _ _ _ Hch Hs Hh2 Hw2 P3) as (u3 & c2 & Eu3 & E2 & P2).
  exists c5, u5, c4, u4, c3, u3, c2. cbv zeta.
  unfold top_down, upsample_call.
  rewrite Hc5, Hup, Hu5, Hu4, Hu3.
  cbn [call4 scale_factor mode align_corners].
  rewrite E5; cbn [bind]. rewrite Eu5; cbn [bind]. rewrite E4; cbn [bind].
  rewrite Eu4; cbn [bind]. rewrite E3; cbn [bind]. rewrite Eu3; cbn [bind].
  rewrite E2; cbn [bind].
  repeat (split; [reflexivity|]).
  split; [exact P5|]. split; [exact P4|].
  split.
  - rewrite P3. f_equal; [f_equal|]; cbn [Nat.pow]; nia.
  - rewrite P2. f_equal; [f_equal|]; cbn [Nat.pow]; nia.
Qed.

(* ------------------------------------------------------------------ *)
(** ** forward *)

(** A call of [forward] that returned went through every step. *)
Lemma forward_sound
    (cls : BackboneClass R) self image lidar velocity bev_points img_points out :
  forward cls self image lidar velocity bev_points img_points = Ok out ->
  forward_contract cls self image lidar velocity bev_points img_points out.
Proof.
  unfold forward, process_image, process_lidar. intro H.
  apply bind_Ok in H. destruct H as (image' & Eimg & H).
  apply bind_Ok in H. destruct H as ([raw_image raw_lidar] & Eenc & H).
  apply bind_Ok in H. destruct H as (image_grid & Eig & H).
  apply bind_Ok in H. destruct H as (lidar_grid & Elg & H).
  apply bind_Ok in H. destruct H as (image_pooled & Eip & H).
  apply bind_Ok in H. destruct H as (lidar_pooled & Elp & H).
  apply bind_Ok in H. destruct H as (pooled_sum & Esum & H).
  apply bind_Ok in H. destruct H as (fused & Efused & H).
  apply bind_Ok in H. destruct H as (decoded & Edec & H).
  injection H as <-.
  apply forward_contract_intro
    with (image' := image') (raw_image := raw_image) (raw_lidar := raw_lidar)
         (lidar_grid := lidar_grid) (image_pooled := image_pooled)
         (lidar_pooled := lidar_pooled) (pooled_sum := pooled_sum);
    try assumption.
  + destruct (Encoder.normalize (image_encoder self));
      [exact Eimg | injection Eimg as <-; reflexivity].
  + destruct (use_velocity_final self).
    * apply bind_Ok in Efused. destruct Efused as (ve & Eve & Eadd).
      exists ve; split; assumption.
    * injection Efused as <-; reflexivity.
Qed.

(** When every step returns, so does [forward], with their results. *)
Lemma forward_complete
    (cls : BackboneClass R) self image lidar velocity bev_points img_points out :
  forward_contract cls self image lidar velocity bev_points img_points out ->
  forward cls self image lidar velocity bev_points img_points = Ok out.
Proof.
  intro H. destruct H as
    [image' raw_image raw_lidar image_grid lidar_grid decoded
     image_pooled lidar_pooled pooled_sum fused
     Himg Henc Hig Hlg Hip Hlp Hsum Hfused Hdec].
  unfold forward, process_image, process_lidar.
  assert (Eimg : (if Encoder.normalize (image_encoder self)
                  then normalize_imagenet image else Ok image) = Ok image').
  { destruct (Encoder.normalize (image_encoder self));
      [exact Himg | rewrite Himg; reflexivity]. }
  rewrite Eimg; cbn [bind]. rewrite Henc; cbn [bind].
  rewrite Hig; cbn [bind]. rewrite Hlg; cbn [bind].
  rewrite Hip; cbn [bind]. rewrite Hlp; cbn [bind].
  rewrite Hsum; cbn [bind].
  destruct (use_velocity_final self).
  + destruct Hfused as (ve & Eve & Eadd).
    rewrite Eve; cbn [bind]. rewrite Eadd; cbn [bind].
    rewrite Hdec; reflexivity.
  + subst fused. cbn [bind]. rewrite Hdec; reflexivity.
Qed.

(** C4. [forward] returns exactly the triple (decoded LiDAR map,
    channel-normalized image map, fused embedding) that the stated
    composition describes, and returns it whenever every step of that
    composition returns: the image is normalized with [normalize_imagenet]
    when the image encoder's [normalize] flag is set and left alone
    otherwise, the LiDAR input is passed through, both encoder outputs go
    through their channel normalizer, the decoded map is [top_down] of the
    channel-normalized LiDAR map, and the fused embedding is the sum of the
    two pooled embeddings plus the velocity embedding when velocity
    conditioning is on. *)
Theorem forward_meets_contract
    (cls : BackboneClass R) self image lidar velocity bev_points img_points :
  process_image self image =
    (if Encoder.normalize (image_encoder self) then normalize_imagenet image
     else Ok image) /\
  process_lidar self lidar = lidar /\
  forall out,
    forward cls self image lidar velocity bev_points img_points = Ok out <->
    forward_contract cls self image lidar velocity bev_points img_points out.
Proof.
  split; [reflexivity|]. split; [reflexivity|].
  intro out; split.
  - apply forward_sound.
  - apply forward_complete.
Qed.

(** C2. In every call of [forward] that returns, the channel-normalized
    image map and the channel-normalized LiDAR map are both pooled by
    [self.image_global_pool], the pooler built for the image encoder's
    architecture name.  [self.lidar_global_pool] takes no part: replacing
    it by any other pooler leaves the outcome of [forward] as it was
    (the encode step, which also receives [self], not reading it). *)
Theorem forward_pools_both_with_image_pool
    (cls : BackboneClass R) self image lidar velocity bev_points img_points :
  (forall decoded image_grid fused,
     forward cls self image lidar velocity bev_points img_points
       = Ok (decoded, image_grid, fused) ->
     exists image' raw_image raw_lidar lidar_grid image_pooled lidar_pooled
            pooled_sum,
       resolve_encoder cls self image' lidar velocity bev_points img_points
         = Ok (raw_image, raw_lidar) /\
       call4 (change_channel_conv_image self) raw_image = Ok image_grid /\
       call4 (change_channel_conv_lidar self) raw_lidar = Ok lidar_grid /\
       global_pool_call (image_global_pool self) image_grid = Ok image_pooled /\
       global_pool_call (image_global_pool self) lidar_grid = Ok lidar_pooled /\
       tadd2 image_pooled lidar_pooled = Ok pooled_sum /\
       (if use_velocity_final self
        then exists velocity_embedding,
               call2 (vel_emb self) velocity = Ok velocity_embedding /\
               tadd2 pooled_sum velocity_embedding = Ok fused
        else fused = pooled_sum)) /\
  (forall pool,
     (forall image',
        resolve_encoder cls (set_lidar_global_pool self pool)
          image' lidar velocity bev_points img_points
        = resolve_encoder cls self image' lidar velocity bev_points img_points) ->
     forward cls (set_lidar_global_pool self pool)
       image lidar velocity bev_points img_points
     = forward cls self image lidar velocity bev_points img_points).
Proof.
  split.
  - intros decoded image_grid fused H.
    apply forward_sound in H. inversion H; subst.
    exists image', raw_image, raw_lidar, lidar_grid, image_pooled,
      lidar_pooled, pooled_sum.
    repeat (split; [assumption|]). assumption.
  - intros pool Henc. unfold forward.
    change (process_image (set_lidar_global_pool self pool) image)
      with (process_image self image).
    destruct (process_image self image) as [image'|e]; cbn [bind];
      [|reflexivity].
    unfold process_lidar. rewrite (Henc image'). reflexivity.
Qed.

(** C3 (as amended). For a backbone constructed with use_velocity=False,
    two calls of [forward] that differ only in the velocity argument have
    the same outcome, fused embedding included, provided the encode step,
    which receives the velocity whatever the flag, returns the same for
    both; and the fused embedding of a call that returns is the sum of the
    two pooled embeddings, with no velocity term. *)
Theorem fused_ignores_velocity_when_disabled
    cfg ia la (sd : StateDict R) self (cls : BackboneClass R)
    image lidar velocity1 velocity2 bev_points img_points :
  __init__ cfg ia la false sd = Ok self ->
  (forall image',
     resolve_encoder cls self image' lidar velocity1 bev_points img_points
     = resolve_encoder cls self image' lidar velocity2 bev_points img_points) ->
  forward cls self image lidar velocity1 bev_points img_points
    = forward cls self image lidar velocity2 bev_points img_points /\
  forall decoded image_grid fused,
    forward cls self image lidar velocity1 bev_points img_points
      = Ok (decoded, image_grid, fused) ->
    exists lidar_grid image_pooled lidar_pooled,
      global_pool_call (image_global_pool self) image_grid = Ok image_pooled /\
      global_pool_call (image_global_pool self) lidar_grid = Ok lidar_pooled /\
      tadd2 image_pooled lidar_pooled = Ok fused.
Proof.
  intros Hinit Henc.
  destruct (init_inv _ _ _ _ _ _ Hinit)
    as (ie & le & _ & _ & _ & _ & _ & Huvf & _).
  split.
  - unfold forward. rewrite Huvf.
    destruct (process_image self image) as [image'|e]; cbn [bind];
      [|reflexivity].
    unfold process_lidar. rewrite (Henc image'). reflexivity.
  - intros decoded image_grid fused H.
    apply forward_sound in H. inversion H; subst.
    match goal with
    | Hf : (if use_velocity_final self then _ else _) |- _ =>
        rewrite Huvf in Hf; subst
    end.
    exists lidar_grid, image_pooled, lidar_pooled.
    repeat (split; [assumption|]). assumption.
Qed.

(** C7. For a backbone constructed with use_velocity=True the velocity
    embedding is [nn.Linear(1, perception_output_features)], an affine map
    with a bias.  In a call of [forward] with a (batch, 1) velocity of
    zeros, every row of the velocity embedding is the bias vector, and the
    fused embedding is the sum of the two pooled embeddings plus that
    embedding: entry by entry, image pooled + LiDAR pooled + bias.  The
    scalar laws assumed are 0 * x = 0 and 0 + x = x. *)
Theorem zero_velocity_adds_bias
    (Hmul : forall x : R, fmul zero x = zero)
    (Hadd : forall x : R, fadd zero x = x)
    cfg ia la (sd : StateDict R) self (cls : BackboneClass R)
    image lidar velocity bev_points img_points decoded image_grid fused :
  __init__ cfg ia la true sd = Ok self ->
  cols velocity = 1 ->
  (forall i, i < rows velocity -> at2 velocity i 0 = zero) ->
  forward cls self image lidar velocity bev_points img_points
    = Ok (decoded, image_grid, fused) ->
  let pof := Config.perception_output_features cfg in
  vel_emb self = Linear 1 pof (vel_emb_weight sd) (vel_emb_bias sd) /\
  exists lidar_grid image_pooled lidar_pooled pooled_sum velocity_embedding,
    global_pool_call (image_global_pool self) image_grid = Ok image_pooled /\
    global_pool_call (image_global_pool self) lidar_grid = Ok lidar_pooled /\
    tadd2 image_pooled lidar_pooled = Ok pooled_sum /\
    call2 (vel_emb self) velocity = Ok velocity_embedding /\
    shape2 velocity_embedding = (rows velocity, pof) /\
    (forall i j, i < rows velocity ->
       at2 velocity_embedding i j = vel_emb_bias sd j) /\
    tadd2 pooled_sum velocity_embedding = Ok fused /\
    (shape2 image_pooled = (rows velocity, pof) ->
     shape2 lidar_pooled = (rows velocity, pof) ->
     shape2 fused = (rows velocity, pof) /\
     forall i j, i < rows velocity -> j < pof ->
       at2 fused i j =
         fadd (fadd (at2 image_pooled i j) (at2 lidar_pooled i j))
              (vel_emb_bias sd j)).
Proof.
  intros Hinit Hcols Hzero Hfwd pof.
  destruct (init_inv _ _ _ _ _ _ Hinit)
    as (ie & le & _ & _ & _ & _ & _ & Huvf & Hvel & _).
  fold pof in Hvel. split; [exact Hvel|].
  apply forward_sound in Hfwd. inversion Hfwd; subst.
  match goal with
  | Hf : (if use_velocity_final self then _ else _) |- _ =>
      rewrite Huvf in Hf; destruct Hf as (ve & Eve & Eadd)
  end.
  exists lidar_grid, image_pooled, lidar_pooled, pooled_sum, ve.
  repeat (split; [assumption|]).
  assert (Eve' := Eve). rewrite Hvel in Eve'. cbn [call2] in Eve'.
  unfold linear2 in Eve'. rewrite Hcols, Nat.eqb_refl in Eve'.
  injection Eve' as Eve'.
  assert (Sve : shape2 ve = (rows velocity, pof)) by (subst ve; reflexivity).
  assert (Bve : forall i j, i < rows velocity ->
                  at2 ve i j = vel_emb_bias sd j).
  { intros i j Hi. subst ve. cbn [at2].
    unfold sum_upto, tabulate, fsum. cbn [seq map fold_left].
    rewrite (Hzero i Hi), Hmul, !Hadd. reflexivity. }
  split; [exact Sve|]. split; [exact Bve|]. split; [exact Eadd|].
  intros Si Sl.
  assert (Sil : shape2 image_pooled = shape2 lidar_pooled) by congruence.
  destruct (tadd2_same_shape image_pooled lidar_pooled Sil)
    as (z & Ez & Sz & Pz).
  assert (z = pooled_sum) by congruence. subst z.
  assert (Ssv : shape2 pooled_sum = shape2 ve) by congruence.
  destruct (tadd2_same_shape pooled_sum ve Ssv) as (f & Ef & Sf & Pf).
  assert (f = fused) by congruence. subst f.
  assert (Rs : rows pooled_sum = rows velocity /\ cols pooled_sum = pof).
  { unfold shape2 in Sz, Si. rewrite Si in Sz. injection Sz as -> ->.
    split; reflexivity. }
  assert (Ri : rows image_pooled = rows velocity /\ cols image_pooled = pof).
  { unfold shape2 in Si. injection Si as -> ->. split; reflexivity. }
  destruct Rs as (Rs1 & Rs2). destruct Ri as (Ri1 & Ri2).
  split; [congruence|].
  intros i j Hi Hj.
  rewrite Pf by lia. rewrite Pz by lia. rewrite Bve by exact Hi. reflexivity.
Qed.

(* ------------------------------------------------------------------ *)
(** ** Errors *)

Lemma call4_raises m (x : Tensor4 R) e :
  call4 m x = Raise e -> e = RuntimeError.
Proof.
  destruct m as [|i o w b|i o [kh kw] w b|n eps w b]; cbn [call4].
  - discriminate.
  - unfold linear4. destruct (width x =? i); [discriminate|congruence].
  - unfold conv2d.
    destruct ((chans x =? i) && (kh <=? height x) && (kw <=? width x));
      [discriminate|congruence].
  - unfold layer_norm4. destruct (width x =? n); [discriminate|congruence].
Qed.

Lemma call2_raises m (x : Tensor2 R) e :
  call2 m x = Raise e -> e = RuntimeError.
Proof.
  destruct m as [|i o w b|i o k w b|n eps w b]; cbn [call2].
  - discriminate.
  - unfold linear2. destruct (cols x =? i); [discriminate|congruence].
  - congruence.
  - unfold layer_norm2. destruct (cols x =? n); [discriminate|congruence].
Qed.

Lemma tadd2_raises (x y : Tensor2 R) e :
  tadd2 x y = Raise e -> e = RuntimeError.
Proof.
  unfold tadd2.
  destruct (broadcast_dim (rows x) (rows y));
    destruct (broadcast_dim (cols x) (cols y)); congruence || discriminate.
Qed.

Lemma global_pool_call_raises g (x : Tensor4 R) e :
  global_pool_call g x = Raise e -> e = RuntimeError.
Proof.
  unfold global_pool_call. intro H.
  apply bind_Raise in H. destruct H as [H | (p & _ & H)].
  - unfold adaptive_avg_pool2d in H. destruct (pool_output_size g) as [oh ow].
    destruct ((0 <? chans x) && (0 <? height x) && (0 <? width x));
      [discriminate|congruence].
  - exact (call2_raises _ _ _ H).
Qed.

Lemma upsample_call_raises u (x : Tensor4 R) e :
  upsample_call u x = Raise e -> e = RuntimeError.
Proof.
  unfold upsample_call, interpolate.
  match goal with |- context [if ?c then _ else _] => destruct c end;
    [discriminate|congruence].
Qed.

Lemma top_down_raises self (x : Tensor4 R) e :
  top_down self x = Raise e -> e = RuntimeError.
Proof.
  unfold top_down. intro H.
  repeat match type of H with
  | bind _ _ = Raise _ =>
      apply bind_Raise in H; destruct H as [H | (? & _ & H)]
  end;
  solve [ exact (call4_raises _ _ _ H)
        | exact (upsample_call_raises _ _ _ H)
        | discriminate H ].
Qed.

(** C9. [BackboneBase.encoder] raises NotImplementedError on every input,
    so [forward] on an object whose class does not override it raises
    NotImplementedError as soon as the image is preprocessed.  No other
    statement of the module raises on purpose: an exception out of
    [forward] is a RuntimeError of the tensor engine or comes from
    [normalize_imagenet] or the class's encode step, and an exception out
    of [__init__] is the IndexError of [config.num_features[-1]] or comes
    from an encoder constructor. *)
Theorem encoder_not_implemented :
  (forall self image lidar velocity bev_points img_points,
     encoder (R := R) self image lidar velocity bev_points img_points
       = Raise NotImplementedError) /\
  (forall self image lidar velocity bev_points img_points image',
     process_image self image = Ok image' ->
     forward BackboneBase_class self image lidar velocity bev_points img_points
       = Raise NotImplementedError) /\
  (forall (cls : BackboneClass R) self image lidar velocity bev_points
          img_points e,
     forward cls self image lidar velocity bev_points img_points = Raise e ->
     e = RuntimeError \/
     normalize_imagenet image = Raise e \/
     exists image',
       resolve_encoder cls self image' lidar velocity bev_points img_points
         = Raise e) /\
  (forall cfg ia la uv (sd : StateDict R) e,
     __init__ cfg ia la uv sd = Raise e ->
     e = IndexError \/
     ImageEncoder ia true = Raise e \/
     exists in_channels, LidarEncoder la in_channels = Raise e).
Proof.
  split; [reflexivity|]. split; [|split].
  - intros self image lidar velocity bev_points img_points image' Himg.
    unfold forward. rewrite Himg. reflexivity.
  - intros cls self image lidar velocity bev_points img_points e H.
    unfold forward in H.
    apply bind_Raise in H. destruct H as [H | (image' & _ & H)].
    { unfold process_image in H.
      destruct (Encoder.normalize (image_encoder self));
        [right; left; exact H | discriminate H]. }
    apply bind_Raise in H. destruct H as [H | ([ri rl] & _ & H)].
    { right; right; exists image'; exact H. }
    left.
    apply bind_Raise in H. destruct H as [H | (ig & _ & H)];
      [exact (call4_raises _ _ _ H)|].
    apply bind_Raise in H. destruct H as [H | (lg & _ & H)];
      [exact (call4_raises _ _ _ H)|].
    apply bind_Raise in H. destruct H as [H | (ip & _ & H)];
      [exact (global_pool_call_raises _ _ _ H)|].
    apply bind_Raise in H. destruct H as [H | (lp & _ & H)];
      [exact (global_pool_call_raises _ _ _ H)|].
    apply bind_Raise in H. destruct H as [H | (ps & _ & H)];
      [exact (tadd2_raises _ _ _ H)|].
    apply bind_Raise in H. destruct H as [H | (fu & _ & H)].
    { destruct (use_velocity_final self); [|discriminate H].
      apply bind_Raise in H. destruct H as [H | (ve & _ & H)];
        [exact (call2_raises _ _ _ H) | exact (tadd2_raises _ _ _ H)]. }
    apply bind_Raise in H. destruct H as [H | (de & _ & H)];
      [exact (top_down_raises _ _ _ H) | discriminate H].
  - intros cfg ia la uv sd e H. unfold __init__ in H.
    apply bind_Raise in H. destruct H as [H | (ie & _ & H)];
      [right; left; exact H|].
    apply bind_Raise in H. destruct H as [H | (n & _ & H)].
    { left. destruct (Config.use_point_pillars cfg); [|discriminate H].
      unfold last_item in H.
      destruct (Config.num_features cfg); [congruence | discriminate H]. }
    apply bind_Raise in H. destruct H as [H | (le & _ & H)];
      [right; right; eexists; exact H | discriminate H].
Qed.

(* ------------------------------------------------------------------ *)
(** ** forward returns *)

(** Either channel normalizer, on a map of the image encoder's width. *)
Lemma channel_conv_ok cfg ia la uv (sd : StateDict R) self (x : Tensor4 R) :
  __init__ cfg ia la uv sd = Ok self ->
  chans x = Encoder.num_features (image_encoder self) ->
  0 < height x -> 0 < width x ->
  exists y_image y_lidar,
    call4 (change_channel_conv_image self) x = Ok y_image /\
    call4 (change_channel_conv_lidar self) x = Ok y_lidar /\
    shape4 y_image =
      (batch x, Config.perception_output_features cfg, height x, width x) /\
    shape4 y_lidar =
      (batch x, Config.perception_output_features cfg, height x, width x).
Proof.
  intros Hinit Hc Hh Hw.
  destruct (init_channel_convs _ _ _ _ _ _ Hinit)
    as (_ & [(Heq & Hci & Hcl) | (Hne & Hci & Hcl)]); rewrite Hci, Hcl.
  - exists x, x. cbn [call4]. unfold shape4. rewrite Hc, Heq.
    repeat split.
  - cbn [call4].
    destruct (conv2d_1x1_ok _ (Config.perception_output_features cfg)
                (change_channel_conv_image_weight sd)
                (change_channel_conv_image_bias sd) x Hc Hh Hw)
      as (yi & Ei & Si).
    destruct (conv2d_1x1_ok _ (Config.perception_output_features cfg)
                (change_channel_conv_lidar_weight sd)
                (change_channel_conv_lidar_bias sd) x Hc Hh Hw)
      as (yl & El & Sl).
    exists yi, yl. repeat split; assumption.
Qed.

Lemma top_down_ok cfg ia la uv (sd : StateDict R) self (x : Tensor4 R) :
  __init__ cfg ia la uv sd = Ok self ->
  let ch := Config.bev_features_chanels cfg in
  let s := Config.bev_upsample_factor cfg in
  0 < ch -> 0 < s ->
  chans x = Config.perception_output_features cfg ->
  0 < height x -> 0 < width x ->
  exists p2,
    top_down self x = Ok p2 /\
    shape4 p2 = (batch x, ch, height x * s ^ 3, width x * s ^ 3).
Proof.
  intros Hinit ch s Hch Hs Hc Hh Hw.
  destruct (init_inv _ _ _ _ _ _ Hinit)
    as (ie & le & _ & _ & _ & _ & _ & _ & _ & _ & _ & _ & _ &
        Hc5 & Hup & Hu5 & Hu4 & Hu3).
  fold ch in Hc5, Hu5, Hu4, Hu3. fold s in Hup.
  destruct (conv2d_1x1_ok _ ch (c5_conv_weight sd) (c5_conv_bias sd) x
              Hc Hh Hw) as (c5 & E5 & S5).
  assert (P5 : shape4 (relu c5) = (batch x, ch, height x, width x))
    by exact S5.
  destruct (top_down_stage s ch (up_conv5_weight sd) (up_conv5_bias sd)
              (relu c5) _ _ _ Hch Hs Hh Hw P5) as (u5 & c4 & Eu5 & E4 & P4).
  assert (Hh1 : 0 < height x * s) by nia.
  assert (Hw1 : 0 < width x * s) by nia.
  destruct (top_down_stage s ch (up_conv4_weight sd) (up_conv4_bias sd)
              (relu c4) _ _ _ Hch Hs Hh1 Hw1 P4) as (u4 & c3 & Eu4 & E3 & P3).
  assert (Hh2 : 0 < height x * s * s) by nia.
  assert (Hw2 : 0 < width x * s * s) by nia.
  destruct (top_down_stage s ch (up_conv3_weight sd) (up_conv3_bias sd)
              (relu c3) _ _ _ Hch Hs Hh2 Hw2 P3) as (u3 & c2 & Eu3 & E2 & P2).
  exists (relu c2). split.
  - unfold top_down, upsample_call.
    rewrite Hc5, Hup, Hu5, Hu4, Hu3.
    cbn [call4 scale_factor mode align_corners].
    rewrite E5; cbn [bind]. rewrite Eu5; cbn [bind]. rewrite E4; cbn [bind].
    rewrite Eu4; cbn [bind]. rewrite E3; cbn [bind]. rewrite Eu3; cbn [bind].
    rewrite E2; reflexivity.
  - rewrite P2. f_equal; [f_equal|]; cbn [Nat.pow]; nia.
Qed.

(** X12. [forward] is total on well-shaped data: when preprocessing returns and
    the encode step returns two maps of the image encoder's width, the same
    batch size and positive spatial sizes (and the velocity is one scalar
    per batch element when velocity conditioning is on), [forward] returns
    a decoded map of shape (batch, bev_features_chanels, H * s^3, W * s^3),
    an image map of shape (batch, perception_output_features, H', W') and a
    fused embedding of shape (batch, perception_output_features). *)
Lemma forward_returns
    cfg ia la uv (sd : StateDict R) self (cls : BackboneClass R)
    image lidar velocity bev_points img_points image' raw_image raw_lidar :
  __init__ cfg ia la uv sd = Ok self ->
  process_image self image = Ok image' ->
  resolve_encoder cls self image' lidar velocity bev_points img_points
    = Ok (raw_image, raw_lidar) ->
  let pof := Config.perception_output_features cfg in
  let ch := Config.bev_features_chanels cfg in
  let s := Config.bev_upsample_factor cfg in
  0 < pof -> 0 < ch -> 0 < s ->
  chans raw_image = Encoder.num_features (image_encoder self) ->
  chans raw_lidar = Encoder.num_features (image_encoder self) ->
  batch raw_lidar = batch raw_image ->
  0 < height raw_image -> 0 < width raw_image ->
  0 < height raw_lidar -> 0 < width raw_lidar ->
  (uv = true -> shape2 velocity = (batch raw_image, 1)) ->
  exists decoded image_grid fused,
    forward cls self image lidar velocity bev_points img_points
      = Ok (decoded, image_grid, fused) /\
    shape4 decoded =
      (batch raw_image, ch, height raw_lidar * s ^ 3, width raw_lidar * s ^ 3) /\
    shape4 image_grid =
      (batch raw_image, pof, height raw_image, width raw_image) /\
    shape2 fused = (batch raw_image, pof).
Proof.
  intros Hinit Himg Henc pof ch s Hpof Hch Hs Hci Hcl Hb Hhi Hwi Hhl Hwl Hvel.
  destruct (channel_conv_ok _ _ _ _ _ _ raw_image Hinit Hci Hhi Hwi)
    as (ig & _ & Eig & _ & Sig & _).
  destruct (channel_conv_ok _ _ _ _ _ _ raw_lidar Hinit Hcl Hhl Hwl)
    as (_ & lg & _ & Elg & _ & Slg).
  rewrite Hb in Slg. fold pof in Sig, Slg.
  destruct (shape4_inv ig _ _ _ _ Sig) as (Ib & Ic & Ih & Iw).
  destruct (shape4_inv lg _ _ _ _ Slg) as (Lb & Lc & Lh & Lw).
  destruct (init_inv _ _ _ _ _ _ Hinit)
    as (ie & le & _ & _ & _ & _ & _ & Huvf & Hve & Hpool & _).
  fold pof in Hve.
  destruct (global_pool_output_shape_aux cfg ia (image_global_pool_weight sd)
              (image_global_pool_bias sd) ig Hpof Ic ltac:(lia) ltac:(lia))
    as (ip & Eip & Sip).
  destruct (global_pool_output_shape_aux cfg ia (image_global_pool_weight sd)
              (image_global_pool_bias sd) lg Hpof Lc ltac:(lia) ltac:(lia))
    as (lp & Elp & Slp).
  rewrite <- Hpool in Eip, Elp. rewrite Ib in Sip. rewrite Lb in Slp.
  fold pof in Sip, Slp.
  destruct (tadd2_same_shape ip lp ltac:(congruence)) as (ps & Eps & Sps & _).
  rewrite Sip in Sps.
  destruct (top_down_ok _ _ _ _ _ _ lg Hinit Hch Hs Lc ltac:(lia) ltac:(lia))
    as (dec & Edec & Sdec).
  rewrite Lb, Lh, Lw in Sdec. fold ch in Sdec. fold s in Sdec.
  assert (Hfused : exists fused,
            (if use_velocity_final self
             then exists ve, call2 (vel_emb self) velocity = Ok ve /\
                             tadd2 ps ve = Ok fused
             else fused = ps) /\
            shape2 fused = (batch raw_image, pof)).
  { rewrite Huvf, Hve. destruct uv.
    - specialize (Hvel eq_refl).
      assert (Hcols : cols velocity = 1)
        by (unfold shape2 in Hvel; injection Hvel as _ Hcv; exact Hcv).
      assert (Hrows : rows velocity = batch raw_image)
        by (unfold shape2 in Hvel; injection Hvel as Hrv _; exact Hrv).
      cbn [call2]. unfold linear2. rewrite Hcols, Nat.eqb_refl.
      match goal with
      | |- context [Ok ?t = Ok _] => set (ve := t)
      end.
      assert (Sve : shape2 ps = shape2 ve)
        by (rewrite Sps; unfold ve, shape2; cbn [rows cols]; congruence).
      destruct (tadd2_same_shape ps ve Sve) as (f & Ef & Sf & _).
      exists f. split; [exists ve; split; [reflexivity | exact Ef]|].
      congruence.
    - exists ps. split; [reflexivity | exact Sps]. }
  destruct Hfused as (fused & Hf & Sf).
  exists dec, ig, fused.
  split; [|split; [exact Sdec | split; [exact Sig | exact Sf]]].
  apply forward_complete.
  apply forward_contract_intro
    with (image' := image') (raw_image := raw_image) (raw_lidar := raw_lidar)
         (lidar_grid := lg) (image_pooled := ip) (lidar_pooled := lp)
         (pooled_sum := ps); try assumption.
  unfold process_image in Himg.
  destruct (Encoder.normalize (image_encoder self));
    [exact Himg | injection Himg as <-; reflexivity].
Qed.

End Properties.

(* ------------------------------------------------------------------ *)
(** * The theorems at work on the concrete instance *)

Module Runs.

Import Demo.
Local Open Scope string_scope.
#[local] Existing Instance Scalar_Z.
#[local] Existing Instance imports.

(** A 1x2x2x2 image with entries 1..8 and a 1x2x1x1 LiDAR map (5, 6). *)
Definition image0 : Tensor4 Z :=
  mkT4 1 2 2 2 (fun n c h w => (Z.of_nat (c * 4 + h * 2 + w) + 1)%Z).
Definition lidar0 : Tensor4 Z :=
  mkT4 1 2 1 1 (fun n c h w => Z.of_nat (c + 5)).

(** The nested lists of a returned triple. *)
Definition show (r : Result (Tensor4 Z * Tensor4 Z * Tensor2 Z))
    : Result (list (list (list (list Z))) * list (list (list (list Z)))
              * list (list Z)) :=
  match r with
  | Ok (decoded, image_grid, fused) =>
      Ok (tolist4 decoded, tolist4 image_grid,
          tolist2 fused)
  | Raise e => Raise e
  end.

(** BackboneBase(cfg 2, 'resnet34', 'convnext_tiny'): the LiDAR encoder is
    3 wide, the image encoder 2 wide. *)
Definition convnext_lidar : BackboneBase Z :=
  returned (__init__ (IM := imports) (cfg 2) "resnet34" "convnext_tiny" false sd).

(** What forward(image0, lidar0, velocity = 0) returns on [with_velocity]. *)
Definition out0 : Tensor4 Z * Tensor4 Z * Tensor2 Z :=
  returned (forward (SR := Scalar_Z) passthrough with_velocity image0 lidar0
              (full2 1 1 0%Z) tt tt).

Lemma channel_normalizer_identity_iff_width_witness :
  __init__ (IM := imports) (cfg 2) "resnet34" "resnet18" false sd = Ok plain /\
  (change_channel_conv_image plain = Identity <-> 2 = 2).
Proof.
  split; [reflexivity|].
  exact (proj1 (channel_normalizer_identity_iff_width Z (SR := Scalar_Z)
                  (IM := imports)
                  (cfg 2) "resnet34" "resnet18" false sd plain eq_refl)).
Defined.

Lemma channel_normalizers_follow_image_encoder_witness :
  Encoder.num_features (lidar_encoder convnext_lidar) = 3 /\
  change_channel_conv_lidar plain = change_channel_conv_lidar convnext_lidar.
Proof.
  split; [reflexivity|].
  exact (proj1 (proj2 (channel_normalizers_follow_image_encoder Z (SR := Scalar_Z)
                  (IM := imports) (cfg 2) "resnet34" "resnet18"
                         "convnext_tiny" false sd plain convnext_lidar
                         eq_refl eq_refl))).
Defined.

Lemma global_pool_output_shape_witness :
  exists y,
    global_pool_call (SR := Scalar_Z)
      (_make_global_pool (cfg 2) "convnext_tiny" (fun _ => 1%Z) (fun _ => 0%Z))
      (full4 1 2 7 7 3%Z) = Ok y /\
    shape2 y = (1, 2).
Proof.
  destruct (global_pool_output_shape Z (SR := Scalar_Z) (cfg 2) "convnext_tiny"
              (fun _ => 1%Z) (fun _ => 0%Z) (full4 1 2 7 7 3%Z))
    as (_ & cell & y & _ & _ & _ & _ & E & S);
    [cbn; lia | reflexivity | cbn; lia | cbn; lia |].
  exists y; split; assumption.
Defined.

Lemma top_down_cascade_witness :
  exists p2,
    top_down (SR := Scalar_Z) plain lidar0 = Ok p2 /\ shape4 p2 = (1, 1, 8, 8).
Proof.
  destruct (top_down_cascade Z (SR := Scalar_Z)
                  (IM := imports) (cfg 2) "resnet34" "resnet18"
              false sd plain lidar0 eq_refl)
    as (_ & _ & _ & _ & _ & c5 & u5 & c4 & u4 & c3 & u3 & c2 &
        _ & _ & _ & _ & _ & _ & _ & E & _ & _ & _ & S);
    [cbn; lia | cbn; lia | reflexivity | cbn; lia | cbn; lia |].
  exists (relu c2); split; assumption.
Defined.

Lemma fused_ignores_velocity_when_disabled_witness :
  forward (SR := Scalar_Z) passthrough plain image0 lidar0 (full2 1 1 3%Z) tt tt
  = forward (SR := Scalar_Z) passthrough plain image0 lidar0 (full2 1 1 4%Z) tt tt.
Proof.
  exact (proj1 (fused_ignores_velocity_when_disabled Z (SR := Scalar_Z)
                  (IM := imports)
                  (cfg 2) "resnet34" "resnet18" sd plain passthrough
                  image0 lidar0 (full2 1 1 3%Z) (full2 1 1 4%Z) tt tt
                  eq_refl (fun _ => eq_refl))).
Defined.

(** C3 as stated fails: on a backbone constructed with use_velocity=False
    whose encode step scales the image features by the speed, two calls
    that differ only in the velocity (3 against 4) return the fused
    embeddings [[9; 22]] and [[11; 28]]. *)
Lemma velocity_reaches_fused_through_encoder :
  __init__ (IM := imports) (cfg 2) "resnet34" "resnet18" false sd = Ok plain /\
  match forward (SR := Scalar_Z) speed_scaled plain image0 lidar0
          (full2 1 1 3%Z) tt tt,
        forward (SR := Scalar_Z) speed_scaled plain image0 lidar0
          (full2 1 1 4%Z) tt tt
  with
  | Ok (_, _, fused1), Ok (_, _, fused2) =>
      tolist2 fused1 = [[9; 22]]%Z /\
      tolist2 fused2 = [[11; 28]]%Z /\
      ~ same2 fused1 fused2
  | _, _ => False
  end.
Proof.
  split; [reflexivity|].
  cbv -[Z.add Z.mul Z.sub Z.div Z.sqrt Z.max Z.of_nat Qfloor lt].
  split; [vm_compute; reflexivity|]. split; [vm_compute; reflexivity|].
  intros [_ H]. specialize (H 0 0 ltac:(lia) ltac:(lia)).
  vm_compute in H. discriminate H.
Defined.

Lemma zero_velocity_adds_bias_witness :
  forward (SR := Scalar_Z) passthrough with_velocity image0 lidar0
    (full2 1 1 0%Z) tt tt = Ok out0 /\
  vel_emb with_velocity = Linear 1 2 (vel_emb_weight sd) (vel_emb_bias sd).
Proof.
  split; [reflexivity|].
  exact (proj1 (zero_velocity_adds_bias Z (SR := Scalar_Z)
                  (IM := imports)
                  (fun x => eq_refl) (fun x => eq_refl)
                  (cfg 2) "resnet34" "resnet18" sd with_velocity passthrough
                  image0 lidar0 (full2 1 1 0%Z) tt tt
                  (fst (fst out0)) (snd (fst out0)) (snd out0)
                  eq_refl eq_refl (fun i _ => eq_refl) eq_refl)).
Defined.

(** ** Runs *)

(** With velocity conditioning off the fused embedding is the sum of the
    two pooled embeddings: image means (1.5, 5.5) after normalization,
    floored to (1, 5), plus LiDAR (5, 6). *)
Example run_plain :
  show (forward (SR := Scalar_Z) passthrough plain image0 lidar0
          (full2 1 1 3%Z) tt tt)
  = Ok (tolist4 (full4 1 1 8 8 11%Z),
        [[[[0; 1]; [2; 3]]; [[4; 5]; [6; 7]]]]%Z,
        [[6; 11]]%Z).
Proof. vm_compute. reflexivity. Qed.

(** With velocity conditioning on and a zero velocity the bias (10, 11)
    is still added. *)
Example run_zero_velocity :
  tolist2 (snd out0) = [[16; 22]]%Z.
Proof. vm_compute. reflexivity. Qed.

(** The LiDAR map is pooled by the image pooler: with a 'convnext' LiDAR
    architecture and a 'resnet' image architecture the fused embedding is
    the one of [run_plain], and the LiDAR pooler, a LayerNorm, would have
    turned the LiDAR means (5, 6) into something else. *)
Example run_convnext_lidar :
  show (forward (SR := Scalar_Z) passthrough convnext_lidar image0 lidar0
          (full2 1 1 3%Z) tt tt)
  = show (forward (SR := Scalar_Z) passthrough plain image0 lidar0
            (full2 1 1 3%Z) tt tt) /\
  match global_pool_call (SR := Scalar_Z) (image_global_pool convnext_lidar) lidar0,
        global_pool_call (SR := Scalar_Z) (lidar_global_pool convnext_lidar) lidar0
  with
  | Ok by_image_pool, Ok by_lidar_pool =>
      tolist2 by_image_pool = [[5; 6]]%Z /\
      tolist2 by_lidar_pool <> [[5; 6]]%Z
  | _, _ => False
  end.
Proof.
  split; [vm_compute; reflexivity|].
  vm_compute. split; [reflexivity | discriminate].
Qed.

(** The base class cannot run [forward]. *)
Example run_base_class :
  show (forward (SR := Scalar_Z) BackboneBase_class plain image0 lidar0
          (full2 1 1 3%Z) tt tt)
  = Raise NotImplementedError.
Proof. reflexivity. Qed.

(** A LiDAR-branch projection built for the image encoder's width (3)
    raises on a map of another width (2). *)
Example run_projecting_wrong_width :
  show (forward (SR := Scalar_Z) passthrough projecting
          (full4 1 3 1 1 1%Z) lidar0 (full2 1 1 3%Z) tt tt)
  = Raise RuntimeError.
Proof. reflexivity. Qed.

(** The pooler's output shape does not depend on the spatial size. *)
Example run_pool_sizes :
  let pool := _make_global_pool (cfg 2) "resnet34" (fun _ => 1%Z) (fun _ => 0%Z) in
  match global_pool_call pool (full4 3 2 1 1 4%Z),
        global_pool_call pool (full4 3 2 7 7 4%Z),
        global_pool_call pool (full4 3 2 32 32 4%Z)
  with
  | Ok y1, Ok y7, Ok y32 =>
      shape2 y1 = (3, 2) /\ shape2 y7 = (3, 2) /\ shape2 y32 = (3, 2) /\
      tolist2 y32 = [[4; 4]; [4; 4]; [4; 4]]%Z
  | _, _, _ => False
  end.
Proof. vm_compute. repeat split. Qed.

End Runs.

(* ------------------------------------------------------------------ *)
(** * Behaviour beyond the contract: edges, errors and frames *)

Section Behaviour.

Variable R : Type.
Context {SR : Scalar R} {IM : Imports R}.

(** A convolution weight that is zero throughout. *)
Definition zero_weight (weight : nat -> nat -> nat -> nat -> R) : Prop :=
  forall o c i j, weight o c i j = zero.

(** ** Inversions: what a layer that returned was given *)

Lemma conv2d_1x1_inv i o (w : nat -> nat -> nat -> nat -> R) b (x y : Tensor4 R) :
  conv2d i o (1, 1) w b x = Ok y ->
  chans x = i /\ 0 < height x /\ 0 < width x /\
  shape4 y = (batch x, o, height x, width x).
Proof.
  unfold conv2d.
  destruct (chans x =? i) eqn:Ec; cbn [andb]; [|discriminate].
  destruct (1 <=? height x) eqn:Eh; cbn [andb]; [|discriminate].
  destruct (1 <=? width x) eqn:Ew; [|discriminate].
  intro H; injection H as <-.
  apply Nat.eqb_eq in Ec. apply Nat.leb_le in Eh. apply Nat.leb_le in Ew.
  repeat split; try lia.
  unfold shape4; cbn [batch chans height width].
  f_equal; [f_equal|]; lia.
Qed.

Lemma interpolate_inv s m a (x y : Tensor4 R) :
  interpolate s m a x = Ok y ->
  0 < chans x /\ 0 < height x /\ 0 < width x /\ 0 < s /\
  shape4 y = (batch x, chans x, height x * s, width x * s).
Proof.
  unfold interpolate.
  destruct (0 <? chans x) eqn:E1; cbn [andb]; [|discriminate].
  destruct (0 <? height x) eqn:E2; cbn [andb]; [|discriminate].
  destruct (0 <? width x) eqn:E3; cbn [andb]; [|discriminate].
  destruct (0 <? height x * s) eqn:E4; cbn [andb]; [|discriminate].
  destruct (0 <? width x * s) eqn:E5; [|discriminate].
  intro H; injection H as <-.
  apply Nat.ltb_lt in E1, E2, E3, E4, E5.
  repeat split; try lia; try nia.
Qed.

Lemma adaptive_avg_pool2d_returns os (x y : Tensor4 R) :
  adaptive_avg_pool2d os x = Ok y ->
  0 < chans x /\ 0 < height x /\ 0 < width x /\
  shape4 y = (batch x, chans x, fst os, snd os).
Proof.
  unfold adaptive_avg_pool2d; destruct os as [oh ow].
  destruct (0 <? chans x) eqn:E1; cbn [andb]; [|discriminate].
  destruct (0 <? height x) eqn:E2; cbn [andb]; [|discriminate].
  destruct (0 <? width x) eqn:E3; [|discriminate].
  intro H; injection H as <-.
  apply Nat.ltb_lt in E1, E2, E3. repeat split; assumption.
Qed.

(** One decoder stage that returned. *)
Lemma top_down_stage_inv s ch (wt : nat -> nat -> nat -> nat -> R) bs
    (p u c : Tensor4 R) :
  interpolate s bilinear false p = Ok u ->
  conv2d ch ch (1, 1) wt bs u = Ok c ->
  0 < s /\ chans p = ch /\ 0 < ch /\ 0 < height p /\ 0 < width p /\
  shape4 (relu c) = (batch p, ch, height p * s, width p * s).
Proof.
  intros Eu Ec.
  destruct (interpolate_inv _ _ _ _ _ Eu) as (Hc & Hh & Hw & Hs & Su).
  destruct (conv2d_1x1_inv _ _ _ _ _ _ Ec) as (Hcu & _ & _ & Sc).
  destruct (shape4_inv R u _ _ _ _ Su) as (Ub & Uc & Uh & Uw).
  rewrite Ub, Uh, Uw in Sc.
  repeat split; try assumption; try lia.
Qed.

(** A decoder call that returned, on a constructed backbone. *)
Lemma top_down_inv cfg ia la uv (sd : StateDict R) self (x p2 : Tensor4 R) :
  __init__ cfg ia la uv sd = Ok self ->
  top_down self x = Ok p2 ->
  let ch := Config.bev_features_chanels cfg in
  let s := Config.bev_upsample_factor cfg in
  chans x = Config.perception_output_features cfg /\
  0 < height x /\ 0 < width x /\ 0 < ch /\ 0 < s /\
  shape4 p2 = (batch x, ch, height x * s ^ 3, width x * s ^ 3).
Proof.
  intros Hinit H ch s.
  destruct (init_inv R _ _ _ _ _ _ Hinit)
    as (ie & le & _ & _ & _ & _ & _ & _ & _ & _ & _ & _ & _ &
        Hc5 & Hup & Hu5 & Hu4 & Hu3).
  fold ch in Hc5, Hu5, Hu4, Hu3. fold s in Hup.
  unfold top_down, upsample_call in H.
  rewrite Hc5, Hup, Hu5, Hu4, Hu3 in H.
  cbn [call4 scale_factor mode align_corners] in H.
  apply bind_Ok in H. destruct H as (c5 & E5 & H).
  apply bind_Ok in H. destruct H as (u5 & Eu5 & H).
  apply bind_Ok in H. destruct H as (c4 & E4 & H).
  apply bind_Ok in H. destruct H as (u4 & Eu4 & H).
  apply bind_Ok in H. destruct H as (c3 & E3 & H).
  apply bind_Ok in H. destruct H as (u3 & Eu3 & H).
  apply bind_Ok in H. destruct H as (c2 & E2 & H).
  injection H as <-.
  destruct (conv2d_1x1_inv _ _ _ _ _ _ E5) as (Hc & Hh & Hw & S5).
  destruct (top_down_stage_inv _ _ _ _ _ _ _ Eu5 E4)
    as (Hs & _ & Hch & _ & _ & P4).
  destruct (top_down_stage_inv _ _ _ _ _ _ _ Eu4 E3)
    as (_ & _ & _ & _ & _ & P3).
  destruct (top_down_stage_inv _ _ _ _ _ _ _ Eu3 E2)
    as (_ & _ & _ & _ & _ & P2).
  destruct (shape4_inv R c5 _ _ _ _ S5) as (B5 & _ & H5 & W5).
  change (shape4 (relu c4) = (batch c5, ch, height c5 * s, width c5 * s)) in P4.
  rewrite B5, H5, W5 in P4.
  destruct (shape4_inv R (relu c4) _ _ _ _ P4) as (B4 & _ & H4 & W4).
  rewrite B4, H4, W4 in P3.
  destruct (shape4_inv R (relu c3) _ _ _ _ P3) as (B3 & _ & H3 & W3).
  rewrite B3, H3, W3 in P2.
  repeat split; try assumption.
  rewrite P2. f_equal; [f_equal|]; cbn [Nat.pow]; nia.
Qed.

(** ** The decoder at its edges *)

(** X1. On a constructed backbone with a positive BEV channel count and a
    positive upsample factor, [top_down] returns exactly on the maps that
    have [perception_output_features] channels and a non-empty spatial
    grid; on every other map it raises RuntimeError. *)
Theorem top_down_returns_iff cfg ia la uv (sd : StateDict R) self (x : Tensor4 R) :
  __init__ cfg ia la uv sd = Ok self ->
  0 < Config.bev_features_chanels cfg ->
  0 < Config.bev_upsample_factor cfg ->
  let accepted :=
    chans x = Config.perception_output_features cfg /\
    0 < height x /\ 0 < width x in
  ((exists p2, top_down self x = Ok p2) <-> accepted) /\
  (~ accepted -> top_down self x = Raise RuntimeError).
Proof.
  intros Hinit Hch Hs accepted.
  assert (Hright : (exists p2, top_down self x = Ok p2) -> accepted).
  { intros (p2 & E).
    destruct (top_down_inv _ _ _ _ _ _ _ _ Hinit E) as (Hc & Hh & Hw & _).
    repeat split; assumption. }
  split; [split; [exact Hright|]|].
  - intros (Hc & Hh & Hw).
    destruct (top_down_ok R _ _ _ _ _ _ x Hinit Hch Hs Hc Hh Hw)
      as (p2 & E & _).
    exists p2; exact E.
  - intro Hno. destruct (top_down self x) as [p2|e] eqn:E.
    + exfalso. apply Hno. apply Hright. exists p2; reflexivity.
    + f_equal. exact (top_down_raises R _ _ _ E).
Qed.


(** ** What a returning forward call went through *)

(** The LiDAR branch of a [forward] call that returned. *)
Lemma forward_lidar_branch
    cfg ia la uv (sd : StateDict R) self (cls : BackboneClass R)
    image lidar velocity bev_points img_points decoded image_grid fused :
  __init__ cfg ia la uv sd = Ok self ->
  forward cls self image lidar velocity bev_points img_points
    = Ok (decoded, image_grid, fused) ->
  exists image' raw_image raw_lidar lidar_grid,
    process_image self image = Ok image' /\
    resolve_encoder cls self image' lidar velocity bev_points img_points
      = Ok (raw_image, raw_lidar) /\
    call4 (change_channel_conv_image self) raw_image = Ok image_grid /\
    call4 (change_channel_conv_lidar self) raw_lidar = Ok lidar_grid /\
    top_down self lidar_grid = Ok decoded /\
    chans raw_lidar = Encoder.num_features (image_encoder self) /\
    chans lidar_grid = Config.perception_output_features cfg /\
    batch lidar_grid = batch raw_lidar /\
    height lidar_grid = height raw_lidar /\
    width lidar_grid = width raw_lidar.
Proof.
  intros Hinit H.
  apply (forward_sound R) in H. inversion H; subst.
  exists image', raw_image, raw_lidar, lidar_grid.
  match goal with
  | Htd : top_down self lidar_grid = Ok _ |- _ =>
      destruct (top_down_inv _ _ _ _ _ _ _ _ Hinit Htd) as (Hc & _)
  end.
  assert (Himg : process_image self image = Ok image').
  { unfold process_image.
    destruct (Encoder.normalize (image_encoder self));
      [assumption | subst; reflexivity]. }
  repeat (split; [assumption|]).
  destruct (init_channel_convs R _ _ _ _ _ _ Hinit)
    as (_ & [(Heq & _ & Hcl) | (Hne & _ & Hcl)]);
    match goal with
    | Hl : call4 (change_channel_conv_lidar self) raw_lidar = Ok lidar_grid
      |- _ => rewrite Hcl in Hl; cbn [call4] in Hl
    end.
  - match goal with
    | Hl : Ok raw_lidar = Ok lidar_grid |- _ => injection Hl as <-
    end.
    repeat split; congruence.
  - match goal with
    | Hl : conv2d _ _ _ _ _ raw_lidar = Ok lidar_grid |- _ =>
        destruct (conv2d_1x1_inv _ _ _ _ _ _ Hl) as (Hcr & _ & _ & Sl)
    end.
    destruct (shape4_inv R lidar_grid _ _ _ _ Sl) as (Lb & Lc & Lh & Lw).
    repeat split; assumption.
Qed.

(** Where an exception of [forward] comes from. *)
Lemma forward_raise_origin
    (cls : BackboneClass R) self image lidar velocity bev_points img_points e :
  forward cls self image lidar velocity bev_points img_points = Raise e ->
  e = RuntimeError \/
  process_image self image = Raise e \/
  exists image',
    process_image self image = Ok image' /\
    resolve_encoder cls self image' lidar velocity bev_points img_points
      = Raise e.
Proof.
  intro H. unfold forward in H.
  apply bind_Raise in H. destruct H as [H | (image' & Eimg & H)];
    [right; left; exact H|].
  apply bind_Raise in H. destruct H as [H | ([ri rl] & _ & H)];
    [right; right; exists image'; split; assumption|].
  left.
  apply bind_Raise in H. destruct H as [H | (ig & _ & H)];
    [exact (call4_raises R _ _ _ H)|].
  apply bind_Raise in H. destruct H as [H | (lg & _ & H)];
    [exact (call4_raises R _ _ _ H)|].
  apply bind_Raise in H. destruct H as [H | (ip & _ & H)];
    [exact (global_pool_call_raises R _ _ _ H)|].
  apply bind_Raise in H. destruct H as [H | (lp & _ & H)];
    [exact (global_pool_call_raises R _ _ _ H)|].
  apply bind_Raise in H. destruct H as [H | (ps & _ & H)];
    [exact (tadd2_raises R _ _ _ H)|].
  apply bind_Raise in H. destruct H as [H | (fu & _ & H)].
  { destruct (use_velocity_final self); [|discriminate H].
    apply bind_Raise in H. destruct H as [H | (ve & _ & H)];
      [exact (call2_raises R _ _ _ H) | exact (tadd2_raises R _ _ _ H)]. }
  apply bind_Raise in H. destruct H as [H | (de & _ & H)];
    [exact (top_down_raises R _ _ _ H) | discriminate H].
Qed.

(** X3. Whenever [forward] returns on a constructed backbone, the LiDAR
    map the encode step produced had exactly [image_encoder.num_features]
    channels and a non-empty spatial grid, the BEV channel count and the
    upsample factor are positive, and the decoded map has shape
    (batch, bev_features_chanels, H * s^3, W * s^3) for that LiDAR map's
    batch size and spatial size (H, W); the returned image map has the
    batch size and spatial size of the encode step's image map. *)
Theorem forward_postcondition
    cfg ia la uv (sd : StateDict R) self (cls : BackboneClass R)
    image lidar velocity bev_points img_points decoded image_grid fused :
  __init__ cfg ia la uv sd = Ok self ->
  forward cls self image lidar velocity bev_points img_points
    = Ok (decoded, image_grid, fused) ->
  let ch := Config.bev_features_chanels cfg in
  let s := Config.bev_upsample_factor cfg in
  exists image' raw_image raw_lidar,
    resolve_encoder cls self image' lidar velocity bev_points img_points
      = Ok (raw_image, raw_lidar) /\
    chans raw_lidar = Encoder.num_features (image_encoder self) /\
    0 < height raw_lidar /\ 0 < width raw_lidar /\
    0 < ch /\ 0 < s /\
    shape4 decoded =
      (batch raw_lidar, ch, height raw_lidar * s ^ 3, width raw_lidar * s ^ 3) /\
    batch image_grid = batch raw_image /\
    height image_grid = height raw_image /\
    width image_grid = width raw_image /\
    0 < chans image_grid /\ 0 < height image_grid /\ 0 < width image_grid.
Proof.
  intros Hinit H ch s.
  destruct (forward_lidar_branch _ _ _ _ _ _ _ _ _ _ _ _ _ _ _ Hinit H)
    as (image' & ri & rl & lg & _ & Eenc & Eig & _ & Etd & Hcr & _ & Lb & Lh & Lw).
  destruct (top_down_inv _ _ _ _ _ _ _ _ Hinit Etd)
    as (_ & Hh & Hw & Hch & Hs & Sd).
  rewrite Lb, Lh, Lw in Sd. rewrite Lh in Hh. rewrite Lw in Hw.
  exists image', ri, rl.
  repeat (split; [assumption|]).
  (* the image branch: pooled, hence non-empty *)
  apply (forward_sound R) in H. inversion H; subst.
  match goal with
  | Hp : global_pool_call (image_global_pool self) image_grid = Ok _ |- _ =>
      unfold global_pool_call in Hp; apply bind_Ok in Hp;
      destruct Hp as (cell & Hcell & _);
      destruct (adaptive_avg_pool2d_returns _ _ _ Hcell) as (Pc & Ph & Pw & _)
  end.
  destruct (init_channel_convs R _ _ _ _ _ _ Hinit)
    as (_ & [(Heq & Hci & _) | (Hne & Hci & _)]);
    rewrite Hci in Eig; cbn [call4] in Eig.
  - injection Eig as <-. repeat split; assumption.
  - destruct (conv2d_1x1_inv _ _ _ _ _ _ Eig) as (_ & _ & _ & Si).
    destruct (shape4_inv R image_grid _ _ _ _ Si) as (Ib & _ & Ih & Iw).
    repeat split; assumption.
Qed.

(** X4. On a backbone constructed with use_velocity=True, [forward]
    returns only when the last dimension of the velocity tensor is 1, the
    input width of [vel_emb]. *)
Theorem forward_needs_scalar_velocity
    cfg ia la (sd : StateDict R) self (cls : BackboneClass R)
    image lidar velocity bev_points img_points out :
  __init__ cfg ia la true sd = Ok self ->
  forward cls self image lidar velocity bev_points img_points = Ok out ->
  cols velocity = 1.
Proof.
  intros Hinit H.
  destruct (init_inv R _ _ _ _ _ _ Hinit)
    as (ie & le & _ & _ & _ & _ & _ & Huvf & Hvel & _).
  apply (forward_sound R) in H. inversion H; subst.
  match goal with
  | Hf : (if use_velocity_final self then _ else _) |- _ =>
      rewrite Huvf in Hf; destruct Hf as (ve & Eve & _)
  end.
  rewrite Hvel in Eve. cbn [call2] in Eve. unfold linear2 in Eve.
  destruct (Nat.eqb_spec (cols velocity) 1) as [Heq | Hne];
    [exact Heq | discriminate Eve].
Qed.

(** X5. When the image encoder's width equals
    [perception_output_features], the image map [forward] returns is the
    encode step's image map itself, and the decoded map is [top_down] of the
    encode step's LiDAR map itself: no projection lies in between. *)
Theorem forward_identity_normalizers
    cfg ia la uv (sd : StateDict R) self (cls : BackboneClass R)
    image lidar velocity bev_points img_points decoded image_grid fused :
  __init__ cfg ia la uv sd = Ok self ->
  Encoder.num_features (image_encoder self)
    = Config.perception_output_features cfg ->
  forward cls self image lidar velocity bev_points img_points
    = Ok (decoded, image_grid, fused) ->
  exists image' raw_lidar,
    process_image self image = Ok image' /\
    resolve_encoder cls self image' lidar velocity bev_points img_points
      = Ok (image_grid, raw_lidar) /\
    top_down self raw_lidar = Ok decoded.
Proof.
  intros Hinit Heq H.
  destruct (forward_lidar_branch _ _ _ _ _ _ _ _ _ _ _ _ _ _ _ Hinit H)
    as (image' & ri & rl & lg & Eimg & Eenc & Eig & Elg & Etd & _).
  destruct (init_channel_convs R _ _ _ _ _ _ Hinit)
    as (_ & [(_ & Hci & Hcl) | (Hne & _)]); [|contradiction].
  rewrite Hci in Eig. rewrite Hcl in Elg. cbn [call4] in Eig, Elg.
  injection Eig as <-. injection Elg as <-.
  exists image', rl. repeat split; assumption.
Qed.

(** X6. If the encode step returns a LiDAR map whose channel count is not
    [image_encoder.num_features], [forward] raises RuntimeError: the LiDAR
    projection, or with identity normalizers the decoder's lateral
    convolution at the latest, rejects it. *)
Theorem forward_rejects_lidar_width
    cfg ia la uv (sd : StateDict R) self (cls : BackboneClass R)
    image lidar velocity bev_points img_points image' raw_image raw_lidar :
  __init__ cfg ia la uv sd = Ok self ->
  process_image self image = Ok image' ->
  resolve_encoder cls self image' lidar velocity bev_points img_points
    = Ok (raw_image, raw_lidar) ->
  chans raw_lidar <> Encoder.num_features (image_encoder self) ->
  forward cls self image lidar velocity bev_points img_points
    = Raise RuntimeError.
Proof.
  intros Hinit Himg Henc Hne.
  destruct (forward cls self image lidar velocity bev_points img_points)
    as [[[decoded image_grid] fused]|e] eqn:E.
  - exfalso.
    destruct (forward_lidar_branch _ _ _ _ _ _ _ _ _ _ _ _ _ _ _ Hinit E)
      as (image'' & ri & rl & lg & Eimg & Eenc & _ & _ & _ & Hcr & _).
    rewrite Himg in Eimg. injection Eimg as <-.
    rewrite Henc in Eenc. injection Eenc as <- <-.
    contradiction.
  - f_equal.
    destruct (forward_raise_origin _ _ _ _ _ _ _ _ E)
      as [He | [Hp | (image'' & Hp & He)]].
    + exact He.
    + rewrite Himg in Hp. discriminate Hp.
    + rewrite Himg in Hp. injection Hp as <-.
      rewrite Henc in He. discriminate He.
Qed.

(** ** The pooler, entry by entry *)

Lemma bin_start_whole size : bin_start size 1 0 = 0.
Proof. unfold bin_start. rewrite Nat.div_1_r. reflexivity. Qed.

Lemma bin_end_whole size : bin_end size 1 0 = size.
Proof.
  unfold bin_end. rewrite Nat.div_1_r. cbn [Nat.add]. lia.
Qed.

Lemma sum_range_from_zero n (f : nat -> R) : sum_range 0 n f = sum_upto n f.
Proof. unfold sum_range, sum_upto, tabulate. rewrite Nat.sub_0_r. reflexivity. Qed.

Lemma sum_upto_ext n (f g : nat -> R) :
  (forall k, f k = g k) -> sum_upto n f = sum_upto n g.
Proof.
  intro H. unfold sum_upto, tabulate. f_equal. apply map_ext. exact H.
Qed.

(** X7. The pooler built for an architecture name outside the ConvNeXt
    family accepts a map of any channel count and non-empty spatial grid
    and returns, for batch element n and channel c, the sum of the H * W
    entries of that channel divided by H * W. *)
Theorem global_pool_plain_is_mean cfg arch (w b : nat -> R) (x : Tensor4 R) :
  startswith arch "convnext" = false ->
  0 < chans x -> 0 < height x -> 0 < width x ->
  exists y,
    global_pool_call (_make_global_pool cfg arch w b) x = Ok y /\
    shape2 y = (batch x, chans x) /\
    forall n c,
      at2 y n c =
        fdiv (sum_upto (height x) (fun h =>
                sum_upto (width x) (fun v => at4 x n c h v)))
             (of_nat (height x * width x)).
Proof.
  intros Harch Hc Hh Hw.
  unfold global_pool_call, _make_global_pool. rewrite Harch.
  cbn [pool_output_size pool_norm]. unfold adaptive_avg_pool2d.
  apply Nat.ltb_lt in Hc, Hh, Hw. rewrite Hc, Hh, Hw.
  cbn [andb bind call2].
  eexists. split; [reflexivity|]. split.
  - unfold shape2, flatten. cbn [rows cols batch chans height width].
    f_equal. lia.
  - intros n c. unfold flatten. cbn [at2 at4 batch chans height width].
    rewrite Nat.mul_1_r, !Nat.div_1_r, !Nat.mod_1_r.
    rewrite !bin_start_whole, !bin_end_whole, !Nat.sub_0_r.
    rewrite sum_range_from_zero. f_equal.
    apply sum_upto_ext. intro h. apply sum_range_from_zero.
Qed.

(** X8. The pooler built for a ConvNeXt architecture name checks the
    channel count: on a map with a non-empty spatial grid it returns, with
    shape (batch, perception_output_features), when the map has exactly
    [perception_output_features] channels, and raises RuntimeError on any
    other channel count. *)
Theorem convnext_pool_checks_width cfg arch (w b : nat -> R) (x : Tensor4 R) :
  startswith arch "convnext" = true ->
  0 < chans x -> 0 < height x -> 0 < width x ->
  let pof := Config.perception_output_features cfg in
  let pool := _make_global_pool cfg arch w b in
  (chans x = pof ->
     exists y, global_pool_call pool x = Ok y /\ shape2 y = (batch x, pof)) /\
  (chans x <> pof -> global_pool_call pool x = Raise RuntimeError).
Proof.
  intros Harch Hc Hh Hw pof pool.
  unfold pool, global_pool_call, _make_global_pool. rewrite Harch.
  cbn [pool_output_size pool_norm]. unfold adaptive_avg_pool2d.
  apply Nat.ltb_lt in Hc, Hh, Hw. rewrite Hc, Hh, Hw.
  cbn [andb bind call2]. unfold layer_norm2, flatten.
  cbn [rows cols batch chans height width].
  replace (chans x * 1 * 1) with (chans x) by lia. fold pof.
  split; intro Hw'.
  - apply Nat.eqb_eq in Hw'. rewrite Hw'. apply Nat.eqb_eq in Hw'.
    eexists; split; [reflexivity|].
    unfold shape2; cbn [rows cols]. f_equal. exact Hw'.
  - apply Nat.eqb_neq in Hw'. rewrite Hw'. reflexivity.
Qed.

(** ** The decoder's last convolution *)

Lemma sum_upto_zero (Hadd : forall x : R, fadd zero x = x) n (f : nat -> R) :
  (forall k, f k = zero) -> sum_upto n f = zero.
Proof.
  intro Hf. unfold sum_upto, tabulate, fsum.
  induction (seq 0 n) as [|a l IH]; cbn [map fold_left]; [reflexivity|].
  rewrite Hf, Hadd. exact IH.
Qed.

(** X9. If the weight of [up_conv3] is zero throughout, every entry of
    the decoded map in channel o is relu(bias[o]), whatever the input and
    the other layers: in particular an all-zero decoder gives an all-zero
    (or bias-constant) map.  The scalar laws assumed are 0 * x = 0 and
    0 + x = x. *)
Theorem top_down_zero_last_weight
    (Hmul : forall x : R, fmul zero x = zero)
    (Hadd : forall x : R, fadd zero x = x)
    cfg ia la uv (sd : StateDict R) self (x p2 : Tensor4 R) :
  __init__ cfg ia la uv sd = Ok self ->
  zero_weight (up_conv3_weight sd) ->
  top_down self x = Ok p2 ->
  forall n o h w, at4 p2 n o h w = fmax (up_conv3_bias sd o) zero.
Proof.
  intros Hinit Hzero H n o h w.
  destruct (init_inv R _ _ _ _ _ _ Hinit)
    as (ie & le & _ & _ & _ & _ & _ & _ & _ & _ & _ & _ & _ &
        _ & _ & _ & _ & Hu3).
  unfold top_down in H.
  repeat (apply bind_Ok in H; destruct H as (? & ? & H)).
  injection H as <-.
  match goal with
  | E : call4 (up_conv3 self) ?u = Ok ?c |- _ =>
      rewrite Hu3 in E; cbn [call4] in E; unfold conv2d in E;
      destruct ((chans u =? Config.bev_features_chanels cfg)
                && (1 <=? height u) && (1 <=? width u));
      [injection E as <- | discriminate E]
  end.
  cbn [relu at4]. f_equal.
  rewrite (sum_upto_zero Hadd); [apply Hadd|].
  intro c. apply (sum_upto_zero Hadd). intro i.
  apply (sum_upto_zero Hadd). intro j.
  rewrite Hzero. apply Hmul.
Qed.

(** ** The constructor *)

Lemma last_cons (d x : nat) (r : list nat) : last (x :: r) d = last r x.
Proof.
  revert d x. induction r as [|y r IH]; intros d x; [reflexivity|].
  change (last (x :: y :: r) d) with (last (y :: r) d).
  rewrite (IH d y), (IH x y). reflexivity.
Qed.

(** X10. The constructor builds the image encoder first, with
    normalize=True, then the LiDAR encoder with [in_channels] equal to the
    last entry of [config.num_features] under [use_point_pillars] and to
    2 * lidar_seq_len otherwise, plus one under [use_target_point_image].
    An exception of the image encoder's constructor comes out unchanged;
    with [use_point_pillars] and an empty [num_features] the constructor
    raises IndexError once the image encoder is built. *)
Theorem init_lidar_in_channels cfg ia la uv (sd : StateDict R) :
  (forall self,
     __init__ cfg ia la uv sd = Ok self ->
     exists base,
       (if Config.use_point_pillars cfg
        then Config.num_features cfg <> [] /\
             base = last (Config.num_features cfg) 0
        else base = 2 * Config.lidar_seq_len cfg) /\
       ImageEncoder ia true = Ok (image_encoder self) /\
       LidarEncoder la
         (if Config.use_target_point_image cfg then base + 1 else base)
         = Ok (lidar_encoder self)) /\
  (forall e, ImageEncoder ia true = Raise e ->
     __init__ cfg ia la uv sd = Raise e) /\
  (forall ie,
     ImageEncoder ia true = Ok ie ->
     Config.use_point_pillars cfg = true ->
     Config.num_features cfg = [] ->
     __init__ cfg ia la uv sd = Raise IndexError).
Proof.
  split; [|split].
  - intros self H. unfold __init__ in H.
    apply bind_Ok in H. destruct H as (ie & Eie & H).
    apply bind_Ok in H. destruct H as (base & Ebase & H).
    apply bind_Ok in H. destruct H as (le & Ele & H).
    injection H as <-. cbn [image_encoder lidar_encoder].
    exists base. split; [|split; assumption].
    destruct (Config.use_point_pillars cfg).
    + destruct (Config.num_features cfg) as [|a r] eqn:Enf;
        [discriminate Ebase|].
      cbn [last_item] in Ebase. injection Ebase as <-.
      split; [discriminate | symmetry; apply (last_cons 0)].
    + injection Ebase as <-. reflexivity.
  - intros e He. unfold __init__. rewrite He. reflexivity.
  - intros ie Hie Hpp Hnf. unfold __init__.
    rewrite Hie, Hpp, Hnf. reflexivity.
Qed.

(** ** Frames *)

(** X11. The image map [forward] returns does not depend on the LiDAR
    branch's projection parameters: two backbones constructed alike from
    state dicts that agree on [change_channel_conv_image]'s weight and
    bias return the same image map, provided their encode steps return the
    same image map. *)
Theorem image_map_ignores_lidar_projection
    cfg ia la uv (sd1 sd2 : StateDict R) self1 self2 (cls : BackboneClass R)
    image lidar velocity bev_points img_points
    decoded1 image_grid1 fused1 decoded2 image_grid2 fused2 :
  __init__ cfg ia la uv sd1 = Ok self1 ->
  __init__ cfg ia la uv sd2 = Ok self2 ->
  change_channel_conv_image_weight sd1 = change_channel_conv_image_weight sd2 ->
  change_channel_conv_image_bias sd1 = change_channel_conv_image_bias sd2 ->
  (forall image' raw_image1 raw_lidar1 raw_image2 raw_lidar2,
     resolve_encoder cls self1 image' lidar velocity bev_points img_points
       = Ok (raw_image1, raw_lidar1) ->
     resolve_encoder cls self2 image' lidar velocity bev_points img_points
       = Ok (raw_image2, raw_lidar2) ->
     raw_image1 = raw_image2) ->
  forward cls self1 image lidar velocity bev_points img_points
    = Ok (decoded1, image_grid1, fused1) ->
  forward cls self2 image lidar velocity bev_points img_points
    = Ok (decoded2, image_grid2, fused2) ->
  image_grid1 = image_grid2.
Proof.
  intros H1 H2 Hw Hb Henc F1 F2.
  destruct (forward_lidar_branch _ _ _ _ _ _ _ _ _ _ _ _ _ _ _ H1 F1)
    as (i1 & ri1 & rl1 & lg1 & Ei1 & Ee1 & Eg1 & _).
  destruct (forward_lidar_branch _ _ _ _ _ _ _ _ _ _ _ _ _ _ _ H2 F2)
    as (i2 & ri2 & rl2 & lg2 & Ei2 & Ee2 & Eg2 & _).
  destruct (init_channel_convs R _ _ _ _ _ _ H1) as (I1 & C1).
  destruct (init_channel_convs R _ _ _ _ _ _ H2) as (I2 & C2).
  assert (Hie : image_encoder self2 = image_encoder self1) by congruence.
  assert (Hi : i2 = i1).
  { unfold process_image in Ei1, Ei2. rewrite Hie in Ei2. congruence. }
  subst i2.
  assert (Hri : ri1 = ri2) by exact (Henc _ _ _ _ _ Ee1 Ee2).
  subst ri2.
  assert (Hcc : change_channel_conv_image self1 = change_channel_conv_image self2).
  { rewrite Hie in C2.
    destruct C1 as [(Q1 & Hc1 & _) | (Q1 & Hc1 & _)];
      destruct C2 as [(Q2 & Hc2 & _) | (Q2 & Hc2 & _)];
      try contradiction; rewrite Hc1, Hc2; [reflexivity|].
    rewrite Hw, Hb. reflexivity. }
  rewrite Hcc in Eg1. congruence.
Qed.

(** ** The anchor poolers *)

(** Every bin of an adaptive pooling is a non-empty window inside the
    pooled dimension. *)
Lemma bin_window size out i :
  0 < size -> i < out ->
  bin_start size out i < bin_end size out i /\ bin_end size out i <= size.
Proof.
  intros Hsize Hi. unfold bin_start, bin_end.
  assert (Hout : out <> 0) by lia.
  split.
  - apply Nat.lt_le_trans with ((i * size + 1 * out) / out).
    + rewrite Nat.div_add by exact Hout. lia.
    + apply Nat.Div0.div_le_mono. nia.
  - apply Nat.lt_succ_r. apply Nat.Div0.div_lt_upper_bound. nia.
Qed.

(** X13. [avgpool_img] and [avgpool_lidar] of a constructed backbone bring
    every map with a non-empty spatial grid to the configured anchor grid,
    (img_vert_anchors, img_horz_anchors) and
    (lidar_vert_anchors, lidar_horz_anchors), keeping batch size and channel
    count; each output cell averages a non-empty window that lies inside
    the map. *)
Theorem anchor_pools_reach_anchor_grid
    cfg ia la uv (sd : StateDict R) self (x : Tensor4 R) :
  __init__ cfg ia la uv sd = Ok self ->
  0 < chans x -> 0 < height x -> 0 < width x ->
  (exists y_image y_lidar,
     adaptive_avg_pool2d (avgpool_img self) x = Ok y_image /\
     shape4 y_image =
       (batch x, chans x,
        Config.img_vert_anchors cfg, Config.img_horz_anchors cfg) /\
     adaptive_avg_pool2d (avgpool_lidar self) x = Ok y_lidar /\
     shape4 y_lidar =
       (batch x, chans x,
        Config.lidar_vert_anchors cfg, Config.lidar_horz_anchors cfg)) /\
  (forall i, i < Config.img_vert_anchors cfg ->
     bin_start (height x) (Config.img_vert_anchors cfg) i
       < bin_end (height x) (Config.img_vert_anchors cfg) i
       <= height x) /\
  (forall j, j < Config.img_horz_anchors cfg ->
     bin_start (width x) (Config.img_horz_anchors cfg) j
       < bin_end (width x) (Config.img_horz_anchors cfg) j
       <= width x) /\
  (forall i, i < Config.lidar_vert_anchors cfg ->
     bin_start (height x) (Config.lidar_vert_anchors cfg) i
       < bin_end (height x) (Config.lidar_vert_anchors cfg) i
       <= height x) /\
  (forall j, j < Config.lidar_horz_anchors cfg ->
     bin_start (width x) (Config.lidar_horz_anchors cfg) j
       < bin_end (width x) (Config.lidar_horz_anchors cfg) j
       <= width x).
Proof.
  intros Hinit Hc Hh Hw.
  assert (Hi : avgpool_img self =
               (Config.img_vert_anchors cfg, Config.img_horz_anchors cfg) /\
               avgpool_lidar self =
               (Config.lidar_vert_anchors cfg, Config.lidar_horz_anchors cfg)).
  { unfold __init__ in Hinit.
    apply bind_Ok in Hinit. destruct Hinit as (ie & _ & H).
    apply bind_Ok in H. destruct H as (base & _ & H).
    apply bind_Ok in H. destruct H as (le & _ & H).
    injection H as <-. split; reflexivity. }
  destruct Hi as (Hai & Hal). rewrite Hai, Hal.
  split; [|repeat split; intros; apply bin_window; assumption].
  destruct (adaptive_avg_pool2d_ok R (Config.img_vert_anchors cfg)
              (Config.img_horz_anchors cfg) x Hc Hh Hw) as (yi & Ei & Si).
  destruct (adaptive_avg_pool2d_ok R (Config.lidar_vert_anchors cfg)
              (Config.lidar_horz_anchors cfg) x Hc Hh Hw) as (yl & El & Sl).
  exists yi, yl. repeat split; assumption.
Qed.

End Behaviour.

(* ------------------------------------------------------------------ *)
(** * The edge properties at work on the concrete instance *)

Module EdgeRuns.

Import Demo.
Import Runs.
Local Open Scope string_scope.
#[local] Existing Instance Scalar_Z.
#[local] Existing Instance imports.


(** [sd] with another LiDAR projection weight and another [up_conv3]
    weight. *)
Definition sd_with (lidar_weight up3_weight : Z) : StateDict Z :=
  {| vel_emb_weight := vel_emb_weight sd;
     vel_emb_bias := vel_emb_bias sd;
     image_global_pool_weight := image_global_pool_weight sd;
     image_global_pool_bias := image_global_pool_bias sd;
     lidar_global_pool_weight := lidar_global_pool_weight sd;
     lidar_global_pool_bias := lidar_global_pool_bias sd;
     change_channel_conv_image_weight := change_channel_conv_image_weight sd;
     change_channel_conv_image_bias := change_channel_conv_image_bias sd;
     change_channel_conv_lidar_weight := fun _ _ _ _ => lidar_weight;
     change_channel_conv_lidar_bias := change_channel_conv_lidar_bias sd;
     c5_conv_weight := c5_conv_weight sd;
     c5_conv_bias := c5_conv_bias sd;
     up_conv5_weight := up_conv5_weight sd;
     up_conv5_bias := up_conv5_bias sd;
     up_conv4_weight := up_conv4_weight sd;
     up_conv4_bias := up_conv4_bias sd;
     up_conv3_weight := fun _ _ _ _ => up3_weight;
     up_conv3_bias := fun o => (7 + Z.of_nat o)%Z |}.


(** A backbone whose last decoder convolution has zero weight. *)
Definition silent : BackboneBase Z :=
  returned (__init__ (cfg 2) "resnet34" "resnet18" false (sd_with 2 0)).

(** [projecting] with another LiDAR projection weight. *)
Definition projecting5 : BackboneBase Z :=
  returned (__init__ (cfg 2) "convnext_tiny" "resnet18" false (sd_with 5 1)).

(** A 1x3x1x1 map of ones. *)
Definition ones3 : Tensor4 Z := full4 1 3 1 1 1%Z.

Definition out_projecting : Tensor4 Z * Tensor4 Z * Tensor2 Z :=
  returned (forward passthrough projecting ones3 ones3 (full2 1 1 3%Z) tt tt).
Definition out_projecting5 : Tensor4 Z * Tensor4 Z * Tensor2 Z :=
  returned (forward passthrough projecting5 ones3 ones3 (full2 1 1 3%Z) tt tt).
Definition image0' : Tensor4 Z := returned (process_image plain image0).
Definition ones3' : Tensor4 Z := returned (process_image projecting ones3).
Definition decoded_silent : Tensor4 Z := returned (top_down silent lidar0).

(** The nested list of a returned map. *)
Definition show4 (r : Result (Tensor4 Z)) : Result (list (list (list (list Z)))) :=
  match r with
  | Ok t => Ok (tolist4 t)
  | Raise e => Raise e
  end.

(** Name the triple a [forward] call returns; a run of the call rules out
    that it raised. *)
Ltac returned_triple call decoded image_grid fused E :=
  let e := fresh "e" in
  let H := fresh "H" in
  destruct call as [[[decoded image_grid] fused]|e] eqn:E;
  [| exfalso; pose proof (f_equal show E) as H; vm_compute in H;
     discriminate H].

Lemma top_down_returns_iff_witness :
  top_down plain ones3 = Raise RuntimeError.
Proof.
  apply (proj2 (top_down_returns_iff Z (SR := Scalar_Z) (IM := imports)
                  (cfg 2) "resnet34" "resnet18" false sd
                  plain ones3 eq_refl
                  ltac:(cbn; lia) ltac:(cbn; lia))).
  intros (Hc & _). discriminate Hc.
Defined.


Lemma forward_postcondition_witness :
  exists decoded image_grid fused,
    forward passthrough with_velocity image0 lidar0 (full2 1 1 0%Z) tt tt
      = Ok (decoded, image_grid, fused) /\
    shape4 decoded = (1, 1, 8, 8).
Proof.
  returned_triple
    (forward passthrough with_velocity image0 lidar0 (full2 1 1 0%Z) tt tt)
    decoded image_grid fused E.
  exists decoded, image_grid, fused. split; [reflexivity|].
  destruct (forward_postcondition Z (SR := Scalar_Z) (IM := imports)
              (cfg 2) "resnet34" "resnet18" true sd
              with_velocity passthrough image0 lidar0 (full2 1 1 0%Z) tt tt
              decoded image_grid fused eq_refl E)
    as (image' & ri & rl & Eenc & _ & _ & _ & _ & _ & Sd & _).
  cbn [resolve_encoder passthrough] in Eenc.
  injection Eenc as _ <-. exact Sd.
Defined.

Lemma forward_needs_scalar_velocity_witness :
  exists out,
    forward passthrough with_velocity image0 lidar0 (full2 1 1 0%Z) tt tt
      = Ok out /\
    cols (full2 1 1 0%Z) = 1.
Proof.
  returned_triple
    (forward passthrough with_velocity image0 lidar0 (full2 1 1 0%Z) tt tt)
    decoded image_grid fused E.
  exists (decoded, image_grid, fused). split; [reflexivity|].
  exact (forward_needs_scalar_velocity Z (SR := Scalar_Z) (IM := imports)
           (cfg 2) "resnet34" "resnet18" sd
           with_velocity passthrough image0 lidar0 (full2 1 1 0%Z) tt tt
           (decoded, image_grid, fused) eq_refl E).
Defined.

Lemma forward_identity_normalizers_witness :
  exists decoded image_grid fused image' raw_lidar,
    forward passthrough plain image0 lidar0 (full2 1 1 3%Z) tt tt
      = Ok (decoded, image_grid, fused) /\
    process_image plain image0 = Ok image' /\
    resolve_encoder passthrough plain image' lidar0 (full2 1 1 3%Z) tt tt
      = Ok (image_grid, raw_lidar) /\
    top_down plain raw_lidar = Ok decoded.
Proof.
  returned_triple
    (forward passthrough plain image0 lidar0 (full2 1 1 3%Z) tt tt)
    decoded image_grid fused E.
  destruct (forward_identity_normalizers Z (SR := Scalar_Z) (IM := imports)
              (cfg 2) "resnet34" "resnet18" false sd
              plain passthrough image0 lidar0 (full2 1 1 3%Z) tt tt
              decoded image_grid fused eq_refl eq_refl E)
    as (image' & raw_lidar & H).
  exists decoded, image_grid, fused, image', raw_lidar.
  split; [reflexivity | exact H].
Defined.

Lemma forward_rejects_lidar_width_witness :
  forward passthrough projecting ones3 lidar0 (full2 1 1 3%Z) tt tt
    = Raise RuntimeError.
Proof.
  apply (forward_rejects_lidar_width Z (SR := Scalar_Z) (IM := imports)
           (cfg 2) "convnext_tiny" "resnet18"
           false sd projecting passthrough ones3 lidar0 (full2 1 1 3%Z) tt tt
           ones3' ones3' lidar0 eq_refl eq_refl eq_refl).
  discriminate.
Defined.

Lemma global_pool_plain_is_mean_witness :
  exists y,
    global_pool_call
      (_make_global_pool (cfg 2) "resnet34" (fun _ => 1%Z) (fun _ => 0%Z))
      image0 = Ok y /\
    shape2 y = (1, 2) /\
    forall n c,
      at2 y n c =
        fdiv (sum_upto 2 (fun h => sum_upto 2 (fun v => at4 image0 n c h v)))
             (of_nat 4).
Proof.
  exact (global_pool_plain_is_mean Z (SR := Scalar_Z)
           (cfg 2) "resnet34"
           (fun _ => 1%Z) (fun _ => 0%Z) image0 eq_refl
           ltac:(cbn; lia) ltac:(cbn; lia) ltac:(cbn; lia)).
Defined.

Lemma convnext_pool_checks_width_witness :
  global_pool_call
    (_make_global_pool (cfg 2) "convnext_tiny" (fun _ => 1%Z) (fun _ => 0%Z))
    ones3 = Raise RuntimeError.
Proof.
  apply (proj2 (convnext_pool_checks_width Z (SR := Scalar_Z)
                  (cfg 2) "convnext_tiny"
                  (fun _ => 1%Z) (fun _ => 0%Z) ones3 eq_refl
                  ltac:(cbn; lia) ltac:(cbn; lia) ltac:(cbn; lia))).
  discriminate.
Defined.

Lemma top_down_zero_last_weight_witness :
  exists p2,
    top_down silent lidar0 = Ok p2 /\
    forall n o h w, at4 p2 n o h w = Z.max (7 + Z.of_nat o) 0.
Proof.
  destruct (top_down silent lidar0) as [p2|e] eqn:E;
    [| exfalso; pose proof (f_equal show4 E) as H; vm_compute in H;
       discriminate H].
  exists p2. split; [reflexivity|].
  exact (top_down_zero_last_weight Z (SR := Scalar_Z) (IM := imports)
           (fun x => eq_refl) (fun x => eq_refl)
           (cfg 2) "resnet34" "resnet18" false (sd_with 2 0) silent lidar0
           p2 eq_refl (fun _ _ _ _ => eq_refl) E).
Defined.

Lemma image_map_ignores_lidar_projection_witness :
  exists out1 out2,
    forward passthrough projecting ones3 ones3 (full2 1 1 3%Z) tt tt = Ok out1 /\
    forward passthrough projecting5 ones3 ones3 (full2 1 1 3%Z) tt tt = Ok out2 /\
    snd (fst out1) = snd (fst out2).
Proof.
  returned_triple
    (forward passthrough projecting ones3 ones3 (full2 1 1 3%Z) tt tt)
    d1 g1 f1 E1.
  returned_triple
    (forward passthrough projecting5 ones3 ones3 (full2 1 1 3%Z) tt tt)
    d2 g2 f2 E2.
  exists (d1, g1, f1), (d2, g2, f2).
  split; [reflexivity|]. split; [reflexivity|].
  apply (image_map_ignores_lidar_projection Z (SR := Scalar_Z) (IM := imports)
           (cfg 2) "convnext_tiny"
           "resnet18" false sd (sd_with 5 1) projecting projecting5
           passthrough ones3 ones3 (full2 1 1 3%Z) tt tt
           d1 g1 f1 d2 g2 f2 eq_refl eq_refl eq_refl eq_refl);
    [|exact E1|exact E2].
  intros image' r1 l1 r2 l2 H1 H2.
  cbn [resolve_encoder passthrough] in H1, H2.
  injection H1 as <- _. injection H2 as <- _. reflexivity.
Defined.

Lemma forward_returns_witness :
  exists decoded image_grid fused,
    forward passthrough plain image0 lidar0 (full2 1 1 3%Z) tt tt
      = Ok (decoded, image_grid, fused) /\
    shape4 decoded = (1, 1, 8, 8) /\
    shape4 image_grid = (1, 2, 2, 2) /\
    shape2 fused = (1, 2).
Proof.
  refine (forward_returns Z (SR := Scalar_Z) (IM := imports)
            (cfg 2) "resnet34" "resnet18" false sd plain
            passthrough image0 lidar0 (full2 1 1 3%Z) tt tt image0' image0'
            lidar0 eq_refl eq_refl eq_refl _ _ _ eq_refl eq_refl eq_refl
            _ _ _ _ _); cbn; lia.
Defined.

Lemma anchor_pools_reach_anchor_grid_witness :
  exists y_image y_lidar,
    adaptive_avg_pool2d (avgpool_img plain) image0 = Ok y_image /\
    shape4 y_image = (1, 2, 1, 1) /\
    adaptive_avg_pool2d (avgpool_lidar plain) image0 = Ok y_lidar /\
    shape4 y_lidar = (1, 2, 1, 1).
Proof.
  exact (proj1 (anchor_pools_reach_anchor_grid Z (SR := Scalar_Z)
                  (IM := imports) (cfg 2) "resnet34"
                  "resnet18" false sd plain image0 eq_refl
                  ltac:(cbn; lia) ltac:(cbn; lia) ltac:(cbn; lia))).
Defined.

(** ** Runs *)

(** The decoded map of [silent] is relu of the bias of [up_conv3]. *)
Example run_silent :
  tolist4 decoded_silent = tolist4 (full4 1 1 8 8 7%Z).
Proof. vm_compute. reflexivity. Qed.

(** The two projecting backbones differ in the decoded map only. *)
Example run_projecting5 :
  tolist4 (snd (fst out_projecting)) = tolist4 (snd (fst out_projecting5)) /\
  tolist4 (fst (fst out_projecting)) <> tolist4 (fst (fst out_projecting5)).
Proof. vm_compute. split; [reflexivity | discriminate]. Qed.

End EdgeRuns.
